(** * RAG pipeline: chunker, document processor and vector-store connector

    A shallow embedding of
      - [core/document.py]             (Document),
      - [chunker/text_chunker.py]      (TextChunker),
      - [processor/document_processor.py] (DocumentProcessor.add_metadata),
      - [database/chroma_connector/connector.py] (ChromaConnector),
    with the properties of the specification stated over it.

    Python objects that are mutated in place are modelled by explicit state:
    every method is a computation in a small state / log / exception monad
    whose state is the object (or the heap) the method can change. *)

From stdpp Require Import gmap strings list fin_maps pretty.
From Stdlib Require Import ZArith QArith.
From Stdlib Require Import Lia.

Local Open Scope Z_scope.
Local Open Scope string_scope.

(* ===================================================================== *)
(** ** Python values, exceptions, log records                             *)
(* ===================================================================== *)

(** Values a metadata mapping ([Dict[str, Any]]) holds. *)
Inductive PyVal : Type :=
  | PyNone
  | PyBool (b : bool)
  | PyInt (z : Z)
  | PyFloat (q : Q)
  | PyStr (s : string).

(** The exceptions the sources raise or let through.  [EngineError] stands
    for an error raised by the vector engine, [IndexError]/[KeyError]/
    [TypeError] for the interpreter's own. *)
Inductive PyError : Type :=
  | ConnectionError (msg : string)
  | ValueError (msg : string)
  | AttributeError (msg : string)
  | TypeError (msg : string)
  | KeyError (msg : string)
  | IndexError (msg : string)
  | EngineError (msg : string).

(** [str(e)] as the f-strings of the [except] clauses print it. *)
Definition str_of_error (e : PyError) : string :=
  match e with
  | ConnectionError m | ValueError m | AttributeError m | TypeError m
  | KeyError m | IndexError m | EngineError m => m
  end.

Inductive PyResult (A : Type) : Type :=
  | Returned (a : A)
  | Raised (e : PyError).
Arguments Returned {A} a.
Arguments Raised {A} e.

Inductive LogLevel : Type := INFO | ERROR.

Record LogRecord : Type := mkLog { level : LogLevel; message : string }.

(** The error taxonomy of the specification, read on the exceptions of the
    sources: a store used before [connect] raises [ConnectionError]; a bad
    splitter configuration, a length mismatch and a wrong query width are
    [ValueError]s. *)
Definition NotConnected : PyError := ConnectionError "Not connected to ChromaDB".

Definition is_ValueError (e : PyError) : bool :=
  match e with ValueError _ => true | _ => false end.

Definition InvalidConfiguration (e : PyError) : Prop := is_ValueError e = true.
Definition ValidationError (e : PyError) : Prop := is_ValueError e = true.
Definition DimensionMismatch (e : PyError) : Prop := is_ValueError e = true.

(* ===================================================================== *)
(** ** The monad of method bodies                                          *)
(* ===================================================================== *)

(** A method body run on state [s] ends in a state, the log records it
    emitted, and either a return value or a raised exception. *)
Record Outcome (S A : Type) : Type := mkOutcome {
  final : S;
  emitted : list LogRecord;
  result : PyResult A
}.
Arguments mkOutcome {S A} final emitted result.
Arguments final {S A} o.
Arguments emitted {S A} o.
Arguments result {S A} o.

Definition M (S A : Type) : Type := S -> Outcome S A.

Definition ret {S A} (a : A) : M S A :=
  fun s => mkOutcome s [] (Returned a).

Definition raise {S A} (e : PyError) : M S A :=
  fun s => mkOutcome s [] (Raised e).

Definition bind {S A B} (m : M S A) (k : A -> M S B) : M S B :=
  fun s =>
    let o := m s in
    match result o with
    | Returned a =>
        let o' := k a (final o) in
        mkOutcome (final o') (emitted o ++ emitted o')%list (result o')
    | Raised e => mkOutcome (final o) (emitted o) (Raised e)
    end.

#[global] Instance M_ret {S} : MRet (M S) := @ret S.
#[global] Instance M_bind {S} : MBind (M S) := fun A B k m => bind m k.

Definition get {S} : M S S := fun s => mkOutcome s [] (Returned s).
Definition put {S} (s : S) : M S unit := fun _ => mkOutcome s [] (Returned tt).
Definition modify {S} (f : S -> S) : M S unit :=
  fun s => mkOutcome (f s) [] (Returned tt).

Definition logger_info {S} (msg : string) : M S unit :=
  fun s => mkOutcome s [mkLog INFO msg] (Returned tt).
Definition logger_error {S} (msg : string) : M S unit :=
  fun s => mkOutcome s [mkLog ERROR msg] (Returned tt).

(** [try: body except Exception as e: handler e]. *)
Definition try_except {S A} (body : M S A) (handler : PyError -> M S A) : M S A :=
  fun s =>
    let o := body s in
    match result o with
    | Returned a => o
    | Raised e =>
        let o' := handler e (final o) in
        mkOutcome (final o') (emitted o ++ emitted o')%list (result o')
    end.

(** Lifting a library call that returns or raises. *)
Definition lift_result {S A} (r : PyResult A) : M S A :=
  match r with
  | Returned a => ret a
  | Raised e => raise e
  end.

(** [x in xs] on a list of strings. *)
Definition py_in (x : string) (xs : list string) : bool :=
  bool_decide (x ∈ xs).

(** Truthiness of an optional string ([None] and the empty string are false). *)
Definition truthy_str (o : option string) : bool :=
  match o with
  | Some s => negb (String.eqb s "")
  | None => false
  end.

(* ===================================================================== *)
(** ** core/document.py                                                    *)
(* ===================================================================== *)

(** The [Document] dataclass, as a value: the mapping held by [metadata] is
    given by its contents.  The heap view, where the mapping is a shared
    object, is in [Module Processor]. *)
Record Document : Type := mkDocument {
  content : string;
  metadata : gmap string PyVal;
  doc_id : option string
}.

(* ===================================================================== *)
(** ** The text-splitting library                                          *)
(* ===================================================================== *)

Module Splitter.

(** The splitter object the chunker builds and keeps in
    [self.text_splitter]: the four options [TextChunker.__init__] passes
    to [CharacterTextSplitter(...)].  The attribute assignments of
    [create_chunks] write the fields [chunk_size] and [chunk_overlap]. *)
Record CharacterTextSplitter : Type := mkSplitter {
  separator : string;
  chunk_size : Z;
  chunk_overlap : Z;
  length_function : string -> Z
}.

Definition set_chunk_size (v : Z) (sp : CharacterTextSplitter) :=
  mkSplitter (separator sp) v (chunk_overlap sp) (length_function sp).

Definition set_chunk_overlap (v : Z) (sp : CharacterTextSplitter) :=
  mkSplitter (separator sp) (chunk_size sp) v (length_function sp).

(** What the chunker uses of the library: the constructor, which may
    reject a configuration, and [split_text]. *)
Class Library : Type := {
  new_splitter :
    string -> Z -> Z -> (string -> Z) -> PyResult CharacterTextSplitter;
  split_text : CharacterTextSplitter -> string -> PyResult (list string)
}.

(** Python's [len] on strings. *)
Definition len (s : string) : Z := Z.of_nat (String.length s).

(** *** The splitting algorithm *)

(** Modelled from the spec: the scan behind step 1 of the splitting
    algorithm.  [split_go sep s skip cur] reads [s]; [skip] characters of a
    matched separator are still to be passed over; [cur] is the segment
    read so far. *)
Fixpoint split_go (sep s : string) (skip : nat) (cur : string) : list string :=
  match s with
  | EmptyString => [cur]
  | String c s' =>
      match skip with
      | S k => split_go sep s' k cur
      | O =>
          if String.prefix sep s
          then cur :: split_go sep s' (String.length sep - 1) ""
          else split_go sep s' 0 (cur ++ String c "")
      end
  end.

(** Modelled from the spec: step 1 of the splitting algorithm of section
    4.2, for the library call [CharacterTextSplitter.split_text], whose
    source is not among the repository's files: the content is cut at
    every occurrence of the separator and empty segments are dropped.
    (With an empty separator every character is a segment.) *)
Definition segments (sep s : string) : list string :=
  let pieces :=
    if String.eqb sep ""
    then (fun c => String c "") <$> String.list_ascii_of_string s
    else split_go sep s 0 "" in
  filter (fun p => p ≠ "") pieces.

Definition sep_cost (sep_len : Z) (current : list string) : Z :=
  match current with [] => 0 | _ => sep_len end.

(** Modelled from the spec: step 3 of the algorithm.  After a chunk is
    closed, leading segments of it are dropped until what is kept is no
    longer than [chunk_overlap] and the next segment fits (or nothing is
    left); the kept tail starts the next chunk. *)
Fixpoint carry_back (sp : CharacterTextSplitter) (sep_len next_len : Z)
    (current : list string) (total : Z) : list string * Z :=
  match current with
  | [] => ([], total)
  | d :: rest =>
      if (total >? chunk_overlap sp)
         || ((total + next_len + sep_len >? chunk_size sp) && (total >? 0))
      then carry_back sp sep_len next_len rest
             (total - (length_function sp d + sep_cost sep_len rest))
      else (current, total)
  end.

(** Modelled from the spec: steps 2, 4 and 5.  Segments are accumulated
    while the length of the chunk, separators included, stays within
    [chunk_size]; a segment that does not fit closes the chunk; a segment
    longer than [chunk_size] is a chunk of its own. *)
Fixpoint merge_splits (sp : CharacterTextSplitter) (sep_len : Z)
    (splits : list string) (docs current : list string) (total : Z)
    : list string :=
  match splits with
  | [] =>
      match current with
      | [] => docs
      | _ => (docs ++ [String.concat (separator sp) current])%list
      end
  | d :: rest =>
      let n := length_function sp d in
      if total + n + sep_cost sep_len current >? chunk_size sp then
        match current with
        | [] => merge_splits sp sep_len rest docs [d] n
        | _ =>
            let docs' := (docs ++ [String.concat (separator sp) current])%list in
            let '(kept, total') := carry_back sp sep_len n current total in
            merge_splits sp sep_len rest docs' (kept ++ [d])%list
              (total' + n + sep_cost sep_len kept)
        end
      else
        merge_splits sp sep_len rest docs (current ++ [d])%list
          (total + n + sep_cost sep_len current)
  end.

(** Modelled from the spec: [CharacterTextSplitter.split_text], the
    algorithm of section 4.2 (the library's source is not among the
    repository's files).  It reads the splitter's four options and never
    raises. *)
Definition spec_split_text (sp : CharacterTextSplitter) (text : string)
    : PyResult (list string) :=
  Returned
    (merge_splits sp (length_function sp (separator sp))
       (segments (separator sp) text) [] [] 0).

(** Modelled from the spec: the constructor's check of section 4.2,
    "fails with InvalidConfiguration when chunk_overlap >= chunk_size or
    chunk_size <= 0" (the library's source is not among the repository's
    files). *)
Definition spec_new_splitter (sep : string) (size overlap : Z)
    (lf : string -> Z) : PyResult CharacterTextSplitter :=
  if ((overlap >=? size) || (size <=? 0))%Z
  then Raised (ValueError "invalid chunk_size / chunk_overlap")
  else Returned (mkSplitter sep size overlap lf).

Definition spec_library : Library :=
  {| new_splitter := spec_new_splitter; split_text := spec_split_text |}.

End Splitter.

Definition nl : string := String (Ascii.ascii_of_nat 10) "".


(* ===================================================================== *)
(** ** chunker/text_chunker.py                                             *)
(* ===================================================================== *)

Module Chunker.

(** A [TextChunker] instance: its two attributes. *)
Record TextChunker : Type := mkChunker {
  text_splitter : Splitter.CharacterTextSplitter;
  add_start_index : bool
}.

(** [haystack.find(needle)]: offset of the first occurrence, or -1. *)
Definition find (haystack needle : string) : Z :=
  match String.index 0 needle haystack with
  | Some i => Z.of_nat i
  | None => -1
  end.

Definition with_splitter (f : Splitter.CharacterTextSplitter ->
                              Splitter.CharacterTextSplitter)
    (self : TextChunker) : TextChunker :=
  mkChunker (f (text_splitter self)) (add_start_index self).

(** The body of the [for] loop of [create_chunks]: the chunk document
    built for position [i] out of [total]. *)
Definition chunk_doc (self : TextChunker) (document : Document)
    (total : nat) (i : nat) (chunk_text : string) : Document :=
  let chunk_metadata := metadata document in
  let chunk_metadata :=
    <["total_chunks" := PyInt (Z.of_nat total)]>
      (<["chunk_index" := PyInt (Z.of_nat i)]> chunk_metadata) in
  let chunk_metadata :=
    if add_start_index self
    then <["chunk_start_index" := PyInt (find (content document) chunk_text)]>
           chunk_metadata
    else chunk_metadata in
  mkDocument chunk_text chunk_metadata
    (if truthy_str (doc_id document)
     then Some (default "" (doc_id document) ++ "_chunk_" ++ pretty i)
     else None).

Section WithLibrary.
Context {lib : Splitter.Library}.

(** [TextChunker.__init__]. *)
Definition init (chunk_size chunk_overlap : Z) (separator : string)
    (length_function : string -> Z) (add_start_index : bool)
    : M unit TextChunker :=
  sp ← lift_result
         (Splitter.new_splitter separator chunk_size chunk_overlap
            length_function);
  logger_info ("Initialized TextChunker with chunk_size="
               ++ pretty chunk_size ++ ", chunk_overlap="
               ++ pretty chunk_overlap);;
  mret (mkChunker sp add_start_index).

(** [TextChunker.create_chunks]; the state is [self]. *)
Definition create_chunks (document : Document)
    (chunk_size chunk_overlap : option Z)
    : M TextChunker (list Document) :=
  try_except
    (match chunk_size with
     | Some v => modify (with_splitter (Splitter.set_chunk_size v))
     | None => mret tt
     end;;
     match chunk_overlap with
     | Some v => modify (with_splitter (Splitter.set_chunk_overlap v))
     | None => mret tt
     end;;
     self ← get;
     chunk_texts ← lift_result
                     (Splitter.split_text (text_splitter self)
                        (content document));
     let chunked_docs :=
       imap (chunk_doc self document (length chunk_texts)) chunk_texts in
     logger_info ("Split document into "
                  ++ pretty (length chunked_docs) ++ " chunks");;
     mret chunked_docs)
    (fun e =>
       logger_error ("Error chunking document: " ++ str_of_error e);;
       raise e).

End WithLibrary.

End Chunker.

(* ===================================================================== *)
(** ** processor/document_processor.py                                     *)
(* ===================================================================== *)

Module Processor.

(** Objects live on a heap: a [Document] object refers to its metadata
    mapping, which is an object of its own and may be shared. *)
Definition loc := positive.

Record DocumentObj : Type := mkDocumentObj {
  o_content : string;
  o_metadata : loc;
  o_doc_id : option string
}.

Record Heap : Type := mkHeap {
  dicts : gmap loc (gmap string PyVal);
  documents : gmap loc DocumentObj
}.

(** The value of the document object at [d], its mapping read through. *)
Definition read_document (h : Heap) (d : loc) : option Document :=
  o ← documents h !! d;
  m ← dicts h !! o_metadata o;
  Some (mkDocument (o_content o) m (o_doc_id o)).

(** [target.update(source)]: the entries of [source] are written into
    [target]. *)
Definition dict_update (target source : gmap string PyVal)
    : gmap string PyVal :=
  source ∪ target.

(** [DocumentProcessor.add_metadata]; the state is the heap, the
    arguments and the result are references. *)
Definition add_metadata (doc additional_metadata : loc) : M Heap loc :=
  h ← get;
  match documents h !! doc with
  | None => raise (AttributeError "object has no attribute 'metadata'")
  | Some o =>
      match dicts h !! o_metadata o, dicts h !! additional_metadata with
      | Some target, Some source =>
          put (mkHeap (<[o_metadata o := dict_update target source]> (dicts h))
                      (documents h));;
          mret doc
      | _, _ => raise (TypeError "metadata is not a mapping")
      end
  end.

End Processor.

(* ===================================================================== *)
(** ** The vector engine                                                   *)
(* ===================================================================== *)

Module Engine.

(** One stored record: generated id, chunk text, embedding, metadata. *)
Record Row : Type := mkRow {
  row_id : string;
  row_document : string;
  row_embedding : list Q;
  row_metadata : gmap string PyVal
}.

(** Modelled from the spec: the state of the embedded vector engine the
    connector is bound to (its source is not among the repository's
    files): the named collections of section 3, each "holding records of
    (chunk text, embedding vector, metadata, generated id)", in creation
    order. *)
Definition t : Type := list (string * list Row).

(** The client object returned by [PersistentClient(path=...)]. *)
Record Client : Type := mkClient { client_path : string }.

(** A collection object, as returned by [create_collection] and
    [get_or_create_collection]: it names its collection. *)
Record Handle : Type := mkHandle { handle_name : string }.

Definition names (e : t) : list string := e.*1.

Definition rows (e : t) (name : string) : option (list Row) :=
  snd <$> List.find (fun p => String.eqb (fst p) name) e.

(** Modelled from the spec: [client.list_collections()], "list_collections
    () -> sequence of name". *)
Definition list_collections (e : t) : PyResult (list string) :=
  Returned (names e).

(** Modelled from the spec: [client.create_collection(name)], which
    "creates an empty, independently addressable namespace"; the engine
    refuses a name it already holds. *)
Definition create_collection (name : string) (e : t) : t * PyResult Handle :=
  if py_in name (names e)
  then (e, Raised (EngineError ("Collection " ++ name ++ " already exists")))
  else ((e ++ [(name, [])])%list, Returned (mkHandle name)).

(** Modelled from the spec: [client.get_or_create_collection(name)]. *)
Definition get_or_create_collection (name : string) (e : t)
    : t * PyResult Handle :=
  if py_in name (names e)
  then (e, Returned (mkHandle name))
  else ((e ++ [(name, [])])%list, Returned (mkHandle name)).

(** Modelled from the spec: [client.delete_collection(name)]; dropping a
    missing collection "fails with EngineFailure". *)
Definition delete_collection (name : string) (e : t) : t * PyResult unit :=
  if py_in name (names e)
  then (List.filter (fun p => negb (String.eqb (fst p) name)) e, Returned tt)
  else (e, Raised (EngineError ("Collection " ++ name ++ " does not exist"))).

Fixpoint zip_rows (ids documents : list string) (embeddings : list (list Q))
    (metadatas : list (gmap string PyVal)) : list Row :=
  match ids, documents, embeddings, metadatas with
  | i :: ids', d :: documents', v :: embeddings', m :: metadatas' =>
      mkRow i d v m :: zip_rows ids' documents' embeddings' metadatas'
  | _, _, _, _ => []
  end.

(** Modelled from the spec: [collection.add(embeddings, documents,
    metadatas, ids)]: the parallel sequences "must be equal-length"
    ("fails with ValidationError if lengths mismatch"); position i
    describes one record, appended to the collection. *)
Definition add (h : Handle) (embeddings : list (list Q))
    (documents : list string) (metadatas : list (gmap string PyVal))
    (ids : list string) (e : t) : t * PyResult unit :=
  if negb (py_in (handle_name h) (names e))
  then (e, Raised (EngineError ("Collection " ++ handle_name h
                                 ++ " does not exist")))
  else if negb ((length embeddings =? length ids)%nat
                && (length documents =? length ids)%nat
                && (length metadatas =? length ids)%nat)
  then (e, Raised (ValueError "Unequal lengths"))
  else
    (List.map (fun p : string * list Row =>
                 if String.eqb (fst p) (handle_name h)
                 then (fst p,
                       (snd p ++ zip_rows ids documents embeddings metadatas)%list)
                 else p) e,
     Returned tt).

(** Modelled from the spec: the engine's distance ("whatever metric the
    underlying engine returns"); the squared Euclidean distance is taken. *)
Fixpoint distance (u v : list Q) : Q :=
  match u, v with
  | x :: u', y :: v' => ((x - y) * (x - y) + distance u' v')%Q
  | _, _ => 0%Q
  end.

Fixpoint insert_by_distance (q : list Q) (r : Row) (sorted : list Row)
    : list Row :=
  match sorted with
  | [] => [r]
  | r' :: rest =>
      if Qle_bool (distance q (row_embedding r)) (distance q (row_embedding r'))
      then r :: sorted
      else r' :: insert_by_distance q r rest
  end.

Definition nearest (q : list Q) (k : nat) (rs : list Row) : list Row :=
  take k (foldr (insert_by_distance q) [] rs).

(** The engine's answer: parallel arrays, one inner list per query. *)
Record QueryResult : Type := mkQueryResult {
  ids : list (list string);
  distances : list (list Q);
  metadatas : list (list (gmap string PyVal))
}.

(** Modelled from the spec: [collection.query(query_embeddings,
    n_results, include)]: per query vector the [n_results] records
    nearest to it, nearest first, as parallel arrays. *)
Definition query (h : Handle) (query_embeddings : list (list Q))
    (n_results : Z) (e : t) : PyResult QueryResult :=
  match rows e (handle_name h) with
  | None => Raised (EngineError ("Collection " ++ handle_name h
                                  ++ " does not exist"))
  | Some rs =>
      let hits := (fun q => nearest q (Z.to_nat n_results) rs)
                    <$> query_embeddings in
      Returned
        (mkQueryResult
           ((fun hs => row_id <$> hs) <$> hits)
           (zip_with (fun q hs => (fun r => distance q (row_embedding r)) <$> hs)
              query_embeddings hits)
           ((fun hs => row_metadata <$> hs) <$> hits))
  end.

End Engine.

(* ===================================================================== *)
(** ** database/chroma_connector/connector.py                              *)
(* ===================================================================== *)

Module Connector.

(** A [ChromaConnector] instance: the three attributes [__init__] sets. *)
Record ChromaConnector : Type := mkConnector {
  persist_directory : string;
  client : option Engine.Client;
  collections : gmap string Engine.Handle
}.

(** What a method of the connector can read and change: the instance,
    the engine behind it, and the source [uuid.uuid4] draws from
    ([uuid_source n] is the n-th value drawn).  [engine_opens] says
    whether [PersistentClient(path=...)] succeeds. *)
Record Store : Type := mkStore {
  self : ChromaConnector;
  engine : Engine.t;
  engine_opens : bool;
  uuid_source : nat -> string;
  uuid_drawn : nat
}.

Definition set_self (f : ChromaConnector -> ChromaConnector) (w : Store) :=
  mkStore (f (self w)) (engine w) (engine_opens w) (uuid_source w) (uuid_drawn w).

Definition set_engine (e : Engine.t) (w : Store) : Store :=
  mkStore (self w) e (engine_opens w) (uuid_source w) (uuid_drawn w).

Definition set_client (c : option Engine.Client) (s : ChromaConnector) :=
  mkConnector (persist_directory s) c (collections s).

Definition set_collections (m : gmap string Engine.Handle)
    (s : ChromaConnector) :=
  mkConnector (persist_directory s) (client s) m.

(** [ChromaConnector.__init__]. *)
Definition init (persist_directory : string) : ChromaConnector :=
  mkConnector persist_directory None ∅.

(** [not self.client]. *)
Definition not_client (w : Store) : bool :=
  match client (self w) with None => true | Some _ => false end.

(** A call into the engine that may change it. *)
Definition engine_step {A} (f : Engine.t -> Engine.t * PyResult A)
    : M Store A :=
  fun w =>
    let '(e, r) := f (engine w) in
    mkOutcome (set_engine e w) [] r.

(** A call into the engine that only reads it. *)
Definition engine_read {A} (f : Engine.t -> PyResult A) : M Store A :=
  fun w => mkOutcome w [] (f (engine w)).

(** [str(uuid.uuid4())]. *)
Definition uuid4 : M Store string :=
  fun w =>
    mkOutcome
      (mkStore (self w) (engine w) (engine_opens w) (uuid_source w)
         (S (uuid_drawn w)))
      [] (Returned (uuid_source w (uuid_drawn w))).

Definition connect : M Store unit :=
  try_except
    (w ← get;
     (if engine_opens w
      then modify (set_self
                     (set_client
                        (Some (Engine.mkClient (persist_directory (self w))))))
      else raise (EngineError "could not open the persist directory"));;
     logger_info "Connected to ChromaDB")
    (fun e =>
       logger_error ("Error connecting to ChromaDB: " ++ str_of_error e);;
       raise e).

Definition disconnect : M Store unit :=
  modify (set_self (fun s => set_collections ∅ (set_client None s)));;
  logger_info "Disconnected from ChromaDB".

Definition create_collection (collection_name : string) : M Store unit :=
  w ← get;
  if not_client w then raise (ConnectionError "Not connected to ChromaDB")
  else
    try_except
      (existing_collections ← engine_read Engine.list_collections;
       if py_in collection_name existing_collections
       then logger_info ("Collection " ++ collection_name ++ " already exists")
       else
         h ← engine_step (Engine.create_collection collection_name);
         modify (set_self (fun s =>
                   set_collections (<[collection_name := h]> (collections s)) s));;
         logger_info ("Created collection: " ++ collection_name))
      (fun e =>
         logger_error ("Error creating collection " ++ collection_name
                       ++ ": " ++ str_of_error e);;
         raise e).

Definition drop_collection (collection_name : string) : M Store unit :=
  w ← get;
  if not_client w then raise (ConnectionError "Not connected to ChromaDB")
  else
    try_except
      (engine_step (Engine.delete_collection collection_name);;
       modify (set_self (fun s =>
                 set_collections (delete collection_name (collections s)) s));;
       logger_info ("Dropped collection: " ++ collection_name))
      (fun e =>
         logger_error ("Error dropping collection " ++ collection_name
                       ++ ": " ++ str_of_error e);;
         raise e).

Definition list_collections : M Store (list string) :=
  w ← get;
  if not_client w then raise (ConnectionError "Not connected to ChromaDB")
  else
    try_except
      (collections ← engine_read Engine.list_collections;
       logger_info ("Found " ++ pretty (length collections) ++ " collections");;
       mret collections)
      (fun e =>
         logger_error ("Error listing collections: " ++ str_of_error e);;
         raise e).

(** [ChromaConnector.get_collection], the "helper method to get or
    create collection reference". *)
Definition get_collection (collection_name : string) : M Store Engine.Handle :=
  w ← get;
  match collections (self w) !! collection_name with
  | Some h => mret h
  | None =>
      match client (self w) with
      | None =>
          raise (AttributeError
                   "'NoneType' object has no attribute 'get_or_create_collection'")
      | Some _ =>
          h ← engine_step (Engine.get_or_create_collection collection_name);
          modify (set_self (fun s =>
                    set_collections (<[collection_name := h]> (collections s)) s));;
          mret h
      end
  end.

(** *** Attribute lookup on the instance

    The names [self.<name>] can resolve to: the attributes assigned in
    [__init__] and the methods of the class body ([DBConnector] declares
    the same method names and nothing else). *)
Definition instance_attributes : list string :=
  ["persist_directory"; "client"; "collections"].

Definition class_attributes : list string :=
  ["__init__"; "connect"; "disconnect"; "create_collection";
   "drop_collection"; "list_collections"; "get_collection";
   "add_to_collection"; "search_similar"].

Definition no_attribute {A} (name : string) : M Store A :=
  raise (AttributeError
           ("'ChromaConnector' object has no attribute '" ++ name ++ "'")).

(** The methods that take a collection name and return its handle. *)
Definition handle_methods : list (string * (string -> M Store Engine.Handle)) :=
  [("get_collection", get_collection)].

(** The attributes that hold a table of embedding widths per collection
    name: no statement of the class assigns one. *)
Definition width_tables (s : ChromaConnector) : list (string * gmap string Z) :=
  [].

Definition lookup_attr {A} (name : string) (table : list (string * A))
    : option A :=
  snd <$> List.find (fun p => String.eqb (fst p) name) table.

(** [self.<name>(arg)] for a handle method. *)
Definition call_handle_method (name : string) (arg : string)
    : M Store Engine.Handle :=
  match lookup_attr name handle_methods with
  | Some f => f arg
  | None => no_attribute name
  end.

(** [self.<name>[key]] for a table of widths. *)
Definition read_width (name : string) (key : string) : M Store Z :=
  w ← get;
  match lookup_attr name (width_tables (self w)) with
  | Some table =>
      match table !! key with
      | Some d => mret d
      | None => raise (KeyError key)
      end
  | None => no_attribute name
  end.

Definition add_to_collection (collection_name : string)
    (chunks : list string) (embeddings : list (list Q))
    (metadata : list (gmap string PyVal)) : M Store (list string) :=
  w ← get;
  if not_client w then raise (ConnectionError "Not connected to ChromaDB")
  else
    try_except
      (collection ← call_handle_method "_get_collection" collection_name;
       chunk_ids ← mapM (fun _ => uuid4) chunks;
       engine_step (Engine.add collection embeddings chunks metadata chunk_ids);;
       logger_info ("Added " ++ pretty (length chunks)
                    ++ " chunks to collection " ++ collection_name);;
       mret chunk_ids)
      (fun e =>
         logger_error ("Error adding chunks to collection " ++ collection_name
                       ++ ": " ++ str_of_error e);;
         raise e).

(** [xs[0]]. *)
Definition first {S A} (xs : list A) : M S A :=
  match xs with
  | x :: _ => mret x
  | [] => raise (IndexError "list index out of range")
  end.

Fixpoint zip3 {A B C} (xs : list A) (ys : list B) (zs : list C)
    : list (A * B * C) :=
  match xs, ys, zs with
  | x :: xs', y :: ys', z :: zs' => (x, y, z) :: zip3 xs' ys' zs'
  | _, _, _ => []
  end.

Definition search_similar (collection_name : string)
    (query_embedding : list Q) (k : Z)
    : M Store (list (string * Q * gmap string PyVal)) :=
  w ← get;
  if not_client w then raise (ConnectionError "Not connected to ChromaDB")
  else
    try_except
      (collection ← call_handle_method "_get_collection" collection_name;
       expected_dim ← read_width "_collection_dimensions" collection_name;
       if negb (Z.of_nat (length query_embedding) =? expected_dim)%Z
       then raise (ValueError
                     ("Query embedding has dimension "
                      ++ pretty (length query_embedding) ++ ", expected "
                      ++ pretty expected_dim))
       else
         results ← engine_read (Engine.query collection [query_embedding] k);
         ids0 ← first (Engine.ids results);
         distances0 ← first (Engine.distances results);
         metadatas0 ← first (Engine.metadatas results);
         mret ((fun t : string * Q * gmap string PyVal =>
                  let '(id_, dist, meta) := t in (id_, (1 - dist)%Q, meta))
                 <$> zip3 ids0 distances0 metadatas0))
      (fun e =>
         logger_error ("Error searching in collection " ++ collection_name
                       ++ ": " ++ str_of_error e);;
         raise e).

End Connector.

(* ===================================================================== *)
(** ** Reference values used in the statements                             *)
(* ===================================================================== *)

Module Scenario.

(** The configuration a chunker holds after a call that passed
    [chunk_size] and [chunk_overlap]: a passed value replaces the stored
    one, an option left out keeps it. *)
Definition configured (chunk_size chunk_overlap : option Z)
    (self : Chunker.TextChunker) : Chunker.TextChunker :=
  let self1 :=
    match chunk_size with
    | Some v => Chunker.with_splitter (Splitter.set_chunk_size v) self
    | None => self
    end in
  match chunk_overlap with
  | Some v => Chunker.with_splitter (Splitter.set_chunk_overlap v) self1
  | None => self1
  end.

(** The keys [create_chunks] writes into a chunk's metadata. *)
Definition chunk_keys (self : Chunker.TextChunker) : list string :=
  if Chunker.add_start_index self
  then ["chunk_index"; "total_chunks"; "chunk_start_index"]
  else ["chunk_index"; "total_chunks"].

(** The texts, and the values under one metadata key, of the chunks a call
    returned. *)
Definition chunk_texts {S} (o : Outcome S (list Document)) : PyResult (list string) :=
  match result o with
  | Returned chunks => Returned (content <$> chunks)
  | Raised e => Raised e
  end.

Definition chunk_field {S} (key : string) (o : Outcome S (list Document))
    : PyResult (list (option PyVal)) :=
  match result o with
  | Returned chunks => Returned ((fun c => metadata c !! key) <$> chunks)
  | Raised e => Raised e
  end.

(** A chunker built with the given size and overlap, the separator being a
    blank line and the length function [len]. *)
Definition chunker (size overlap : Z) : Chunker.TextChunker :=
  Chunker.mkChunker (Splitter.mkSplitter (nl ++ nl) size overlap Splitter.len) true.

Definition abc_content : string :=
  "AAAA" ++ nl ++ nl ++ "BBBB" ++ nl ++ nl ++ "CCCC".

Definition abc_document : Document :=
  mkDocument abc_content {[ "source" := PyStr "abc.txt" ]} (Some "abc").

(** The chunks of [abc_document] under chunk_size 9 and no overlap, with
    the splitting algorithm of the specification, and the second of them. *)
Definition abc_chunks : list Document :=
  match result (Chunker.create_chunks (lib := Splitter.spec_library)
                  abc_document None None (chunker 9 0)) with
  | Returned chunks => chunks
  | Raised _ => []
  end.

Definition abc_chunk_1 : Document :=
  default (mkDocument "" ∅ None) (abc_chunks !! 1%nat).


(** A store straight out of [ChromaConnector("db")], over an empty engine. *)
Definition fresh_store : Connector.Store :=
  Connector.mkStore (Connector.init "db") [] true
    (fun n => "uuid-" ++ pretty n) 0%nat.

(** The same after a successful [connect()]. *)
Definition connected_store : Connector.Store :=
  Connector.mkStore
    (Connector.mkConnector "db" (Some (Engine.mkClient "db")) ∅)
    [] true (fun n => "uuid-" ++ pretty n) 0%nat.

(** A connected store whose persist directory already holds a collection
    of records two components wide. *)
Definition persisted_store : Connector.Store :=
  Connector.mkStore
    (Connector.mkConnector "db" (Some (Engine.mkClient "db")) ∅)
    [("docs", [Engine.mkRow "r0" "AAAA" [1%Q; 0%Q] ∅])] true
    (fun n => "uuid-" ++ pretty n) 0%nat.

(** A heap with a document (at 3) whose metadata is the mapping at 1, and
    a second mapping (at 2) a caller passes to [add_metadata]. *)
Definition heap0 : Processor.Heap :=
  Processor.mkHeap
    (<[2%positive := {[ "author" := PyStr "me" ]}]>
       {[ 1%positive := {[ "source" := PyStr "a.txt" ]} ]})
    {[ 3%positive := Processor.mkDocumentObj "text" 1%positive None ]}.

End Scenario.

(* ===================================================================== *)
(** ** processor/document_processor.py: loading                            *)
(* ===================================================================== *)

Module Loader.

(** What [load_data] and [convert_pdf_to_text] use of the interpreter and
    of the PDF library, none of it part of the sources:
    [Path(p).suffix], [Path(p).name], [str.lower], [str.isspace] on one
    character, [open(p, 'r', encoding='utf-8').read()], and, for a PDF,
    [PdfReader(open(p, 'rb')).pages] with [extract_text()] of each page
    (opening the file, parsing it and extracting a page may each raise). *)
Class Platform : Type := {
  path_suffix : string -> string;
  path_name : string -> string;
  lower : string -> string;
  isspace : Ascii.ascii -> bool;
  read_text : string -> PyResult string;
  pdf_pages : string -> PyResult (list (PyResult string))
}.

Section WithPlatform.
Context {platform : Platform}.

(** [s.lstrip()], [s.rstrip()], [s.strip()]. *)
Fixpoint lstrip (s : string) : string :=
  match s with
  | EmptyString => EmptyString
  | String c s' => if isspace c then lstrip s' else s
  end.

Fixpoint rstrip (s : string) : string :=
  match s with
  | EmptyString => EmptyString
  | String c s' =>
      match rstrip s' with
      | EmptyString => if isspace c then EmptyString else String c EmptyString
      | r => String c r
      end
  end.

Definition strip (s : string) : string := lstrip (rstrip s).

(** The [for page in pdf_reader.pages] loop: [text += page.extract_text()
    + "\n\n"], stopping at the first page that raises. *)
Fixpoint extract_pages (pages : list (PyResult string)) (text : string)
    : PyResult string :=
  match pages with
  | [] => Returned text
  | Returned t :: rest => extract_pages rest (text ++ (t ++ (nl ++ nl)))
  | Raised e :: _ => Raised e
  end.

(** [DocumentProcessor.convert_pdf_to_text]. *)
Definition convert_pdf_to_text (file_path : string) : M unit string :=
  try_except
    (pages ← lift_result (pdf_pages file_path);
     text ← lift_result (extract_pages pages "");
     mret (strip text))
    (fun e =>
       logger_error ("Error converting PDF to text: " ++ str_of_error e);;
       raise e).

(** [DocumentProcessor.load_data]. *)
Definition load_data (file_path : string) : M unit Document :=
  try_except
    (content ←
       (if String.eqb (lower (path_suffix file_path)) ".pdf"
        then convert_pdf_to_text file_path
        else if py_in (lower (path_suffix file_path)) [".txt"; ".text"]
        then lift_result (read_text file_path)
        else raise (ValueError ("Unsupported file format: "
                                ++ path_suffix file_path)));
     let metadata : gmap string PyVal :=
       <["file_name" := PyStr (path_name file_path)]>
         (<["file_type" := PyStr (lower (path_suffix file_path))]>
            {[ "source" := PyStr file_path ]}) in
     mret (mkDocument content metadata None))
    (fun e =>
       logger_error ("Error loading document: " ++ str_of_error e);;
       raise e).

End WithPlatform.

End Loader.

(* ===================================================================== *)
(** ** Sequences of calls on a connector                                   *)
(* ===================================================================== *)

Module Session.

(** One call of a public method of [ChromaConnector]. *)
Inductive Call : Type :=
  | Connect
  | Disconnect
  | CreateCollection (name : string)
  | DropCollection (name : string)
  | ListCollections
  | GetCollection (name : string)
  | AddToCollection (name : string) (chunks : list string)
      (embeddings : list (list Q)) (metadata : list (gmap string PyVal))
  | SearchSimilar (name : string) (query_embedding : list Q) (k : Z).

(** The store a call leaves behind, whether it returned or raised. *)
Definition perform (c : Call) (w : Connector.Store) : Connector.Store :=
  match c with
  | Connect => final (Connector.connect w)
  | Disconnect => final (Connector.disconnect w)
  | CreateCollection name => final (Connector.create_collection name w)
  | DropCollection name => final (Connector.drop_collection name w)
  | ListCollections => final (Connector.list_collections w)
  | GetCollection name => final (Connector.get_collection name w)
  | AddToCollection name chunks embeddings metadata =>
      final (Connector.add_to_collection name chunks embeddings metadata w)
  | SearchSimilar name query_embedding k =>
      final (Connector.search_similar name query_embedding k w)
  end.

Definition run (calls : list Call) (w : Connector.Store) : Connector.Store :=
  foldl (fun w c => perform c w) w calls.

(** All the records the engine holds, over all collections. *)
Definition all_rows (e : Engine.t) : list Engine.Row :=
  concat (snd <$> e).

(** Every cached handle is filed under the name of its collection, and
    that collection is one the engine holds. *)
Definition coherent (w : Connector.Store) : Prop :=
  forall n h,
    Connector.collections (Connector.self w) !! n = Some h ->
    Engine.handle_name h = n /\ n ∈ Engine.names (Connector.engine w).

End Session.

(** Further reference values. *)
Module Reference.

(** A platform with two files: a text file and a PDF of two pages. *)
Definition platform : Loader.Platform :=
  {| Loader.path_suffix := fun p =>
       if String.eqb p "notes.TXT" then ".TXT"
       else if String.eqb p "paper.pdf" then ".pdf"
       else if String.eqb p "broken.pdf" then ".pdf"
       else if String.eqb p "damaged.pdf" then ".pdf"
       else ".bin";
     Loader.path_name := fun p => p;
     Loader.lower := fun s =>
       if String.eqb s ".TXT" then ".txt" else s;
     Loader.isspace := fun c =>
       (Ascii.eqb c (Ascii.ascii_of_nat 32)
        || Ascii.eqb c (Ascii.ascii_of_nat 10))%bool;
     Loader.read_text := fun p =>
       if String.eqb p "notes.TXT" then Returned "some notes"
       else Raised (ValueError "cannot read");
     Loader.pdf_pages := fun p =>
       if String.eqb p "paper.pdf"
       then Returned [Returned "page one"; Returned "page two"]
       else if String.eqb p "damaged.pdf"
       then Returned [Returned "page one"; Raised (KeyError "/Contents");
                      Returned "page three"]
       else Raised (ValueError "not a PDF") |}.

(** The document [load_data] makes of the text file, and its chunks. *)
Definition notes_document : Document :=
  match result (Loader.load_data (platform := platform) "notes.TXT" tt) with
  | Returned d => d
  | Raised _ => mkDocument "" ∅ None
  end.

Definition notes_chunks : list Document :=
  match result (Chunker.create_chunks (lib := Splitter.spec_library)
                  notes_document None None (Scenario.chunker 9 0)) with
  | Returned chunks => chunks
  | Raised _ => []
  end.

Definition notes_chunk_0 : Document :=
  default (mkDocument "" ∅ None) (notes_chunks !! 0%nat).

(** A splitter library whose [split_text] raises. *)
Definition failing_library : Splitter.Library :=
  {| Splitter.new_splitter := Splitter.spec_new_splitter;
     Splitter.split_text := fun _ _ => Raised (TypeError "expected a string") |}.

(** A document in which one paragraph comes twice, and its chunks under
    chunk_size 9. *)
Definition repeated_document : Document :=
  mkDocument ("AAAA" ++ nl ++ nl ++ "BBBB" ++ nl ++ nl ++ "AAAA") ∅ None.

Definition repeated_chunks : list Document :=
  match result (Chunker.create_chunks (lib := Splitter.spec_library)
                  repeated_document None None (Scenario.chunker 9 0)) with
  | Returned chunks => chunks
  | Raised _ => []
  end.

Definition repeated_chunk (i : nat) : Document :=
  default (mkDocument "" ∅ None) (repeated_chunks !! i).

(** A heap where two documents (at 3 and 4) refer to one mapping (at 1). *)
Definition shared_heap : Processor.Heap :=
  Processor.mkHeap
    (<[2%positive := {[ "author" := PyStr "me" ]}]>
       {[ 1%positive := {[ "source" := PyStr "a.txt" ]} ]})
    (<[4%positive := Processor.mkDocumentObj "second" 1%positive None]>
       {[ 3%positive := Processor.mkDocumentObj "first" 1%positive None ]}).

(** A heap with a document (at 3) over the mapping at 1, and two
    mappings (at 2 and at 5) that both set [author]; the one at 2 also
    replaces the document's [lang]. *)
Definition contested_heap : Processor.Heap :=
  Processor.mkHeap
    (<[5%positive := {[ "author" := PyStr "you" ]}]>
       (<[2%positive := <["lang" := PyStr "fr"]> {[ "author" := PyStr "me" ]}]>
          {[ 1%positive := <["lang" := PyStr "en"]>
                             {[ "source" := PyStr "a.txt" ]} ]}))
    {[ 3%positive := Processor.mkDocumentObj "text" 1%positive None ]}.

(** A connected store with two collections, the first of them cached. *)
Definition two_collections : Connector.Store :=
  Connector.mkStore
    (Connector.mkConnector "db" (Some (Engine.mkClient "db"))
       {[ "docs" := Engine.mkHandle "docs" ]})
    [("docs", [Engine.mkRow "r0" "AAAA" [1%Q; 0%Q] ∅]); ("notes", [])] true
    (fun n => "uuid-" ++ pretty n) 0%nat.

(** A sequence of calls touching every public method. *)
Definition busy_session : list Session.Call :=
  [Session.CreateCollection "x";
   Session.AddToCollection "x" ["AAAA"] [[1%Q; 0%Q]] [∅];
   Session.DropCollection "docs";
   Session.GetCollection "docs";
   Session.SearchSimilar "docs" [1%Q; 0%Q] 1;
   Session.ListCollections;
   Session.Disconnect;
   Session.GetCollection "notes";
   Session.Connect;
   Session.DropCollection "missing"].

End Reference.

(* ===================================================================== *)
(** * Properties                                                           *)
(* ===================================================================== *)

(** ** The splitting algorithm on the reference content *)

Example segments_abc :
  Splitter.segments (nl ++ nl) Scenario.abc_content = ["AAAA"; "BBBB"; "CCCC"].
Proof. vm_compute. reflexivity. Qed.

Example spec_split_text_9 :
  Splitter.spec_split_text
    (Chunker.text_splitter (Scenario.chunker 9 0)) Scenario.abc_content
  = Returned ["AAAA"; "BBBB"; "CCCC"].
Proof. vm_compute. reflexivity. Qed.

Example spec_split_text_10 :
  Splitter.spec_split_text
    (Chunker.text_splitter (Scenario.chunker 10 0)) Scenario.abc_content
  = Returned ["AAAA" ++ nl ++ nl ++ "BBBB"; "CCCC"].
Proof. vm_compute. reflexivity. Qed.

(** ** The chunker *)

Section ChunkerFacts.
Context {lib : Splitter.Library}.

(** What a call of [create_chunks] does, in one equation: the overrides
    are stored, the splitter is run on the stored configuration, and the
    chunk documents are built from its output; an exception of the
    splitter is logged and raised again. *)
Lemma create_chunks_run document chunk_size chunk_overlap self :
  Chunker.create_chunks document chunk_size chunk_overlap self =
  let self' := Scenario.configured chunk_size chunk_overlap self in
  match Splitter.split_text (Chunker.text_splitter self') (content document) with
  | Returned texts =>
      mkOutcome self'
        [mkLog INFO ("Split document into " ++ pretty (length texts) ++ " chunks")]
        (Returned (imap (Chunker.chunk_doc self' document (length texts)) texts))
  | Raised e =>
      mkOutcome self'
        [mkLog ERROR ("Error chunking document: " ++ str_of_error e)]
        (Raised e)
  end.
Proof.
  unfold Chunker.create_chunks, Scenario.configured, try_except.
  destruct chunk_size as [cs|], chunk_overlap as [co|];
    cbv [mbind M_bind bind mret M_ret ret modify get lift_result raise
         logger_info logger_error result final emitted app];
    match goal with
    | |- context [Splitter.split_text ?sp ?c] =>
        destruct (Splitter.split_text sp c) as [texts|e]
    end; cbv beta iota; rewrite ?length_imap; reflexivity.
Qed.

(** A call without overrides leaves the chunker as it was. *)
Lemma create_chunks_no_override_frame document self :
  final (Chunker.create_chunks document None None self) = self.
Proof.
  rewrite create_chunks_run. cbn.
  destruct (Splitter.split_text _ _); reflexivity.
Qed.

(** The chunker a call leaves behind, whether it returned or raised. *)
Lemma create_chunks_final document chunk_size chunk_overlap self :
  final (Chunker.create_chunks document chunk_size chunk_overlap self)
  = Scenario.configured chunk_size chunk_overlap self.
Proof.
  rewrite create_chunks_run. cbv zeta.
  destruct (Splitter.split_text _ _); reflexivity.
Qed.

(** C1 (as amended).  A call that passes [chunk_size] and/or
    [chunk_overlap] assigns the passed values to the attributes
    [chunk_size] / [chunk_overlap] of the chunker's shared splitter object
    and never restores them: after the call, whether it returned or
    raised, a passed attribute holds the passed value and an attribute not
    passed holds the value it had; the separator, the length function and
    [add_start_index] are untouched; a later call without overrides
    leaves the attributes as the overriding call left them.  The call
    leaves the chunker as it found it exactly when every value it passes
    is the one already stored (in particular when it passes none). *)
Theorem create_chunks_override_is_stored document chunk_size chunk_overlap self :
  let o := Chunker.create_chunks document chunk_size chunk_overlap self in
  let stored_size := Splitter.chunk_size (Chunker.text_splitter self) in
  let stored_overlap := Splitter.chunk_overlap (Chunker.text_splitter self) in
  Splitter.chunk_size (Chunker.text_splitter (final o))
    = default stored_size chunk_size
  /\ Splitter.chunk_overlap (Chunker.text_splitter (final o))
     = default stored_overlap chunk_overlap
  /\ Splitter.separator (Chunker.text_splitter (final o))
     = Splitter.separator (Chunker.text_splitter self)
  /\ Splitter.length_function (Chunker.text_splitter (final o))
     = Splitter.length_function (Chunker.text_splitter self)
  /\ Chunker.add_start_index (final o) = Chunker.add_start_index self
  /\ (forall later,
        final (Chunker.create_chunks later None None (final o)) = final o)
  /\ (final o = self
      <-> default stored_size chunk_size = stored_size
          /\ default stored_overlap chunk_overlap = stored_overlap).
Proof.
  cbv zeta. rewrite create_chunks_final.
  split; [destruct chunk_size, chunk_overlap; reflexivity|].
  split; [destruct chunk_size, chunk_overlap; reflexivity|].
  split; [destruct chunk_size, chunk_overlap; reflexivity|].
  split; [destruct chunk_size, chunk_overlap; reflexivity|].
  split; [destruct chunk_size, chunk_overlap; reflexivity|].
  split; [intros later; apply create_chunks_no_override_frame|].
  destruct self as [[sep size overlap lf] flag].
  destruct chunk_size as [cs|], chunk_overlap as [co|];
    cbn [Scenario.configured Chunker.with_splitter Splitter.set_chunk_size
         Splitter.set_chunk_overlap Chunker.text_splitter
         Chunker.add_start_index Splitter.separator Splitter.chunk_size
         Splitter.chunk_overlap Splitter.length_function default];
    (split; [intros [= -> ->] || intros [= ->] || intros _; auto
            | intros [H1 H2]; subst; reflexivity]).
Qed.

(** The chunk documents of a returning call, position by position. *)
Lemma create_chunks_lookup document chunk_size chunk_overlap self chunks i c :
  result (Chunker.create_chunks document chunk_size chunk_overlap self)
    = Returned chunks ->
  chunks !! i = Some c ->
  exists chunk_text,
    c = Chunker.chunk_doc (Scenario.configured chunk_size chunk_overlap self)
          document (length chunks) i chunk_text.
Proof.
  rewrite create_chunks_run. cbv zeta.
  destruct (Splitter.split_text _ _) as [texts|e]; cbn [result]; [|discriminate].
  intros [= <-] Hc. rewrite length_imap.
  rewrite list_lookup_imap in Hc.
  destruct (texts !! i) as [t|]; [|discriminate].
  injection Hc as <-. eauto.
Qed.

Lemma configured_add_start_index chunk_size chunk_overlap self :
  Chunker.add_start_index (Scenario.configured chunk_size chunk_overlap self)
  = Chunker.add_start_index self.
Proof. destruct chunk_size, chunk_overlap; reflexivity. Qed.


(** C5 (as amended).  The chunker checks no configuration itself.
    Construction hands the options to the library splitter's constructor:
    it fails exactly when that constructor raises, with its exception and
    without a log line, and otherwise logs its INFO line and keeps the
    splitter returned.  Values passed to [create_chunks], one or both and
    whatever they are, are assigned to the splitter unchecked; the call
    then returns the chunks of [split_text]'s texts whenever [split_text]
    returns, and raises only when [split_text] raises: the same
    exception, logged once at ERROR level. *)
Theorem configuration_is_left_to_the_library :
  (forall size overlap sep lf flag,
     Chunker.init size overlap sep lf flag tt =
     match Splitter.new_splitter sep size overlap lf with
     | Returned sp =>
         mkOutcome tt
           [mkLog INFO ("Initialized TextChunker with chunk_size="
                        ++ pretty size ++ ", chunk_overlap=" ++ pretty overlap)]
           (Returned (Chunker.mkChunker sp flag))
     | Raised e => mkOutcome tt [] (Raised e)
     end)
  /\ (forall document chunk_size chunk_overlap self,
        let o := Chunker.create_chunks document chunk_size chunk_overlap self in
        let stored := Chunker.text_splitter self in
        let sp := Splitter.mkSplitter (Splitter.separator stored)
                    (default (Splitter.chunk_size stored) chunk_size)
                    (default (Splitter.chunk_overlap stored) chunk_overlap)
                    (Splitter.length_function stored) in
        Chunker.text_splitter (final o) = sp
        /\ match Splitter.split_text sp (content document) with
           | Returned texts =>
               exists chunks,
                 result o = Returned chunks
                 /\ content <$> chunks = texts
                 /\ emitted o
                    = [mkLog INFO ("Split document into "
                                   ++ pretty (length texts) ++ " chunks")]
           | Raised e =>
               result o = Raised e
               /\ emitted o
                  = [mkLog ERROR ("Error chunking document: "
                                  ++ str_of_error e)]
           end
        /\ (forall e, result o = Raised e ->
                      Splitter.split_text sp (content document) = Raised e)).
Proof.
  split.
  - intros. unfold Chunker.init.
    cbv [mbind M_bind bind mret M_ret ret lift_result raise logger_info
         result final emitted].
    destruct (Splitter.new_splitter _ _ _ _); reflexivity.
  - intros document chunk_size chunk_overlap self. cbv zeta.
    assert (Hsp :
      Chunker.text_splitter (Scenario.configured chunk_size chunk_overlap self)
      = Splitter.mkSplitter
          (Splitter.separator (Chunker.text_splitter self))
          (default (Splitter.chunk_size (Chunker.text_splitter self)) chunk_size)
          (default (Splitter.chunk_overlap (Chunker.text_splitter self))
             chunk_overlap)
          (Splitter.length_function (Chunker.text_splitter self))).
    { destruct self as [[sep size overlap lf] flag].
      destruct chunk_size, chunk_overlap; reflexivity. }
    rewrite create_chunks_run. cbv zeta. rewrite Hsp.
    destruct (Splitter.split_text _ _) as [texts|e]; cbn [final result emitted].
    + split; [exact Hsp|]. split; [|intros e; discriminate].
      eexists. split; [reflexivity|]. split; [|reflexivity].
      generalize (length texts) as n. intros n.
      apply list_eq. intros i.
      rewrite list_lookup_fmap, list_lookup_imap.
      destruct (texts !! i); reflexivity.
    + split; [exact Hsp|]. split; [split; reflexivity|].
      intros e' [= <-]. reflexivity.
Qed.

End ChunkerFacts.

(** The two keys every chunk carries, and its text. *)
Lemma chunk_doc_chunk_index self document total i t :
  metadata (Chunker.chunk_doc self document total i t) !! "chunk_index"
  = Some (PyInt (Z.of_nat i)).
Proof.
  unfold Chunker.chunk_doc.
  destruct (Chunker.add_start_index self); cbn [metadata];
    rewrite !lookup_insert_ne by discriminate; apply lookup_insert_eq.
Qed.

Lemma chunk_doc_total_chunks self document total i t :
  metadata (Chunker.chunk_doc self document total i t) !! "total_chunks"
  = Some (PyInt (Z.of_nat total)).
Proof.
  unfold Chunker.chunk_doc.
  destruct (Chunker.add_start_index self); cbn [metadata];
    rewrite ?lookup_insert_ne by discriminate; apply lookup_insert_eq.
Qed.

Lemma chunk_doc_content self document total i t :
  content (Chunker.chunk_doc self document total i t) = t.
Proof. reflexivity. Qed.

(** *** The chunker on reference inputs *)

(** C1 (as stated) fails: a chunker built with chunk_size 256 is left with
    chunk_size 4 by a call that passed 4; the value is still there after a
    later call that passes nothing. *)
Lemma override_outlives_the_call :
  let self := Scenario.chunker 256 20 in
  let o := Chunker.create_chunks (lib := Splitter.spec_library)
             Scenario.abc_document (Some 4) None self in
  let later := Chunker.create_chunks (lib := Splitter.spec_library)
                 Scenario.abc_document None None (final o) in
  Splitter.chunk_size (Chunker.text_splitter self) = 256
  /\ Splitter.chunk_size (Chunker.text_splitter (final o)) = 4
  /\ final o <> self
  /\ Splitter.chunk_size (Chunker.text_splitter (final later)) = 4.
Proof.
  cbv zeta. repeat split; try (vm_compute; reflexivity).
  intros H.
  apply (f_equal (fun c => Splitter.chunk_size (Chunker.text_splitter c))) in H.
  vm_compute in H. discriminate H.
Qed.


(** C5 (as stated) fails: [create_chunks] accepts overrides with
    chunk_overlap 10 >= chunk_size 5, and an override chunk_size 0: the
    values are stored and the call returns chunks; it raises nothing. *)
Lemma invalid_override_is_accepted :
  let o := Chunker.create_chunks (lib := Splitter.spec_library)
             Scenario.abc_document (Some 5) (Some 10) (Scenario.chunker 256 20) in
  let o' := Chunker.create_chunks (lib := Splitter.spec_library)
              Scenario.abc_document (Some 0) None (Scenario.chunker 256 20) in
  (10 >= 5)%Z
  /\ Splitter.chunk_size (Chunker.text_splitter (final o)) = 5
  /\ Splitter.chunk_overlap (Chunker.text_splitter (final o)) = 10
  /\ (exists chunks, result o = Returned chunks)
  /\ ~ (exists e, result o = Raised e /\ InvalidConfiguration e)
  /\ (0 <= 0)%Z
  /\ Splitter.chunk_size (Chunker.text_splitter (final o')) = 0
  /\ (exists chunks, result o' = Returned chunks)
  /\ ~ (exists e, result o' = Raised e /\ InvalidConfiguration e).
Proof.
  cbv zeta.
  split; [lia|]. split; [reflexivity|]. split; [reflexivity|].
  split; [eexists; reflexivity|].
  split; [intros [e [H _]]; vm_compute in H; discriminate H|].
  split; [lia|]. split; [reflexivity|].
  split; [eexists; reflexivity|].
  intros [e [H _]]; vm_compute in H; discriminate H.
Qed.


(** With the constructor check of the specification, construction does
    reject what C5 names. *)
Lemma construction_rejects_invalid_configuration size overlap sep lf flag :
  (overlap >= size \/ size <= 0)%Z ->
  exists e,
    result (Chunker.init (lib := Splitter.spec_library)
              size overlap sep lf flag tt) = Raised e
    /\ InvalidConfiguration e.
Proof.
  intros Hbad. unfold Chunker.init.
  cbv [mbind M_bind bind mret M_ret ret lift_result raise logger_info
       result final emitted Splitter.new_splitter Splitter.spec_library
       Splitter.spec_new_splitter].
  assert (Hcheck : ((overlap >=? size) || (size <=? 0))%Z = true).
  { apply orb_true_iff. destruct Hbad; [left|right]; lia. }
  rewrite Hcheck. eexists. split; reflexivity.
Qed.

(** C10 (as stated) fails: with chunk_size 9 the first two segments do not
    fit one chunk ("AAAA", a blank line and "BBBB" are 10 characters), and
    the call returns three chunks, not the two of the scenario. *)
Lemma size_9_scenario_is_not_two_chunks :
  let o := Chunker.create_chunks (lib := Splitter.spec_library)
             Scenario.abc_document None None (Scenario.chunker 9 0) in
  Splitter.len ("AAAA" ++ nl ++ nl ++ "BBBB") = 10
  /\ Scenario.chunk_texts o <> Returned ["AAAA" ++ nl ++ nl ++ "BBBB"; "CCCC"]
  /\ Scenario.chunk_field "total_chunks" o
     <> Returned [Some (PyInt 2); Some (PyInt 2)].
Proof.
  cbv zeta. split; [reflexivity|].
  split; intros H; vm_compute in H; discriminate H.
Qed.

(** C10 (as amended).  For a document whose content is "AAAA", a blank
    line, "BBBB", a blank line, "CCCC", chunking with the blank line as
    separator, chunk_size 9 and chunk_overlap 0 returns exactly the three
    chunks "AAAA", "BBBB", "CCCC", with [chunk_index] 0, 1, 2 and
    [total_chunks] 3 in each, whatever the document's metadata and id. *)
Theorem size_9_scenario md id flag :
  let document := mkDocument Scenario.abc_content md id in
  let self :=
    Chunker.mkChunker (Splitter.mkSplitter (nl ++ nl) 9 0 Splitter.len) flag in
  let o := Chunker.create_chunks (lib := Splitter.spec_library)
             document None None self in
  Scenario.chunk_texts o = Returned ["AAAA"; "BBBB"; "CCCC"]
  /\ Scenario.chunk_field "chunk_index" o
     = Returned [Some (PyInt 0); Some (PyInt 1); Some (PyInt 2)]
  /\ Scenario.chunk_field "total_chunks" o
     = Returned [Some (PyInt 3); Some (PyInt 3); Some (PyInt 3)].
Proof.
  cbv zeta. unfold Scenario.chunk_texts, Scenario.chunk_field.
  rewrite create_chunks_run. cbv zeta.
  cbn [Scenario.configured content Chunker.text_splitter Splitter.split_text
       Splitter.spec_library].
  pose proof spec_split_text_9 as Hsplit.
  cbn [Scenario.chunker Chunker.text_splitter] in Hsplit.
  rewrite Hsplit. cbv [result imap fmap list_fmap compose].
  rewrite !chunk_doc_chunk_index, !chunk_doc_total_chunks, !chunk_doc_content.
  repeat split.
Qed.

(** The two chunks of the scenario are what chunk_size 10 gives. *)
Lemma size_10_scenario :
  Scenario.chunk_texts
    (Chunker.create_chunks (lib := Splitter.spec_library)
       Scenario.abc_document None None (Scenario.chunker 10 0))
  = Returned ["AAAA" ++ nl ++ nl ++ "BBBB"; "CCCC"]
  /\ Scenario.chunk_field "total_chunks"
       (Chunker.create_chunks (lib := Splitter.spec_library)
          Scenario.abc_document None None (Scenario.chunker 10 0))
     = Returned [Some (PyInt 2); Some (PyInt 2)].
Proof. split; vm_compute; reflexivity. Qed.

(** ** The document processor *)

Lemma dict_update_lookup target source k :
  Processor.dict_update target source !! k =
  match source !! k with
  | Some v => Some v
  | None => target !! k
  end.
Proof.
  unfold Processor.dict_update. rewrite lookup_union.
  destruct (source !! k), (target !! k); reflexivity.
Qed.

(** C9 (as amended).  [add_metadata(d, m)] makes no copy: it writes the
    entries of [m] into the metadata mapping of the caller's document,
    where they replace the entries under the same keys, and returns the
    reference [d] it was given.  The document object itself (its content,
    its id, the mapping it refers to) and every other mapping on the heap,
    the passed mapping [m] included, are unchanged. *)
Theorem add_metadata_updates_in_place h doc m o target source :
  Processor.documents h !! doc = Some o ->
  Processor.dicts h !! Processor.o_metadata o = Some target ->
  Processor.dicts h !! m = Some source ->
  let out := Processor.add_metadata doc m h in
  result out = Returned doc
  /\ Processor.documents (final out) = Processor.documents h
  /\ Processor.read_document (final out) doc
     = Some (mkDocument (Processor.o_content o)
               (Processor.dict_update target source) (Processor.o_doc_id o))
  /\ (forall k, Processor.dict_update target source !! k
               = match source !! k with
                 | Some v => Some v
                 | None => target !! k
                 end)
  /\ (forall l, l <> Processor.o_metadata o ->
               Processor.dicts (final out) !! l = Processor.dicts h !! l)
  /\ Processor.dicts (final out) !! m = Some source.
Proof.
  intros Hdoc Htarget Hsource. cbv zeta.
  unfold Processor.add_metadata.
  cbv [mbind M_bind bind mret M_ret ret get put raise result final emitted].
  rewrite Hdoc, Htarget, Hsource. cbn [result final Processor.documents
                                       Processor.dicts].
  split; [reflexivity|]. split; [reflexivity|].
  split.
  { unfold Processor.read_document. cbn [Processor.documents Processor.dicts].
    rewrite Hdoc. cbn. rewrite lookup_insert_eq. reflexivity. }
  split; [apply dict_update_lookup|].
  split.
  { intros l Hl. rewrite lookup_insert_ne by congruence. reflexivity. }
  destruct (decide (m = Processor.o_metadata o)) as [->|Hne].
  - rewrite lookup_insert_eq. rewrite Htarget in Hsource.
    injection Hsource as ->. unfold Processor.dict_update.
    f_equal. apply map_eq. intros k. rewrite lookup_union.
    destruct (source !! k); reflexivity.
  - rewrite lookup_insert_ne by congruence. exact Hsource.
Qed.

Lemma add_metadata_updates_in_place_witness :
  let out := Processor.add_metadata 3%positive 2%positive Scenario.heap0 in
  result out = Returned 3%positive
  /\ Processor.documents (final out) = Processor.documents Scenario.heap0
  /\ Processor.read_document (final out) 3%positive
     = Some (mkDocument "text"
               (Processor.dict_update {[ "source" := PyStr "a.txt" ]}
                  {[ "author" := PyStr "me" ]}) None)
  /\ (forall k, Processor.dict_update {[ "source" := PyStr "a.txt" ]}
                 ({[ "author" := PyStr "me" ]} : gmap string PyVal) !! k
               = match ({[ "author" := PyStr "me" ]} : gmap string PyVal) !! k with
                 | Some v => Some v
                 | None => ({[ "source" := PyStr "a.txt" ]} : gmap string PyVal) !! k
                 end)
  /\ (forall l, l <> 1%positive ->
               Processor.dicts (final out) !! l
               = Processor.dicts Scenario.heap0 !! l)
  /\ Processor.dicts (final out) !! 2%positive
     = Some {[ "author" := PyStr "me" ]}.
Proof.
  apply (add_metadata_updates_in_place Scenario.heap0 3%positive 2%positive
           (Processor.mkDocumentObj "text" 1%positive None)
           {[ "source" := PyStr "a.txt" ]} {[ "author" := PyStr "me" ]});
    vm_compute; reflexivity.
Defined.

(** C9 (as stated) fails: after [add_metadata(d, m)] the caller's document
    [d] has gained the entry of [m], and the call returned [d] itself. *)
Lemma add_metadata_mutates_the_caller_s_document :
  let out := Processor.add_metadata 3%positive 2%positive Scenario.heap0 in
  result out = Returned 3%positive
  /\ (metadata <$> Processor.read_document Scenario.heap0 3%positive)
     = Some {[ "source" := PyStr "a.txt" ]}
  /\ (metadata <$> Processor.read_document (final out) 3%positive)
     = Some (<["author" := PyStr "me"]> {[ "source" := PyStr "a.txt" ]})
  /\ Processor.read_document (final out) 3%positive
     <> Processor.read_document Scenario.heap0 3%positive.
Proof.
  cbv zeta. repeat split; try (vm_compute; reflexivity).
  intros H.
  apply (f_equal (fun d => (fun x => metadata x !! "author") <$> d)) in H.
  vm_compute in H. discriminate H.
Qed.

(** ** The connector *)

Ltac run_method :=
  cbv [mbind M_bind bind mret M_ret ret modify get put lift_result raise
       logger_info logger_error try_except
       Connector.engine_step Connector.engine_read Connector.no_attribute
       result final emitted].

(** The name the two data methods look up is bound to nothing: it is
    neither an attribute set by [__init__] nor a name of the class body. *)
Lemma get_collection_helper_is_unbound :
  py_in "_get_collection"
    (Connector.instance_attributes ++ Connector.class_attributes)%list = false
  /\ Connector.lookup_attr "_get_collection" Connector.handle_methods = None
  /\ py_in "_collection_dimensions"
       (Connector.instance_attributes ++ Connector.class_attributes)%list = false.
Proof. repeat split; vm_compute; reflexivity. Qed.

Lemma call_unbound_helper name (w : Connector.Store) :
  Connector.call_handle_method "_get_collection" name w =
  mkOutcome w []
    (Raised (AttributeError
               "'ChromaConnector' object has no attribute '_get_collection'")).
Proof. reflexivity. Qed.

(** On a connected store [add_to_collection] stops at the lookup of the
    helper: the exception is logged and raised again, the store is as
    before. *)
Lemma add_to_collection_connected w name chunks embeddings metadata :
  Connector.not_client w = false ->
  Connector.add_to_collection name chunks embeddings metadata w =
  mkOutcome w
    [mkLog ERROR ("Error adding chunks to collection " ++ name
                  ++ ": 'ChromaConnector' object has no attribute '_get_collection'")]
    (Raised (AttributeError
               "'ChromaConnector' object has no attribute '_get_collection'")).
Proof.
  intros Hc. unfold Connector.add_to_collection. run_method.
  rewrite Hc. rewrite call_unbound_helper. reflexivity.
Qed.

Lemma search_similar_connected w name query_embedding k :
  Connector.not_client w = false ->
  Connector.search_similar name query_embedding k w =
  mkOutcome w
    [mkLog ERROR ("Error searching in collection " ++ name
                  ++ ": 'ChromaConnector' object has no attribute '_get_collection'")]
    (Raised (AttributeError
               "'ChromaConnector' object has no attribute '_get_collection'")).
Proof.
  intros Hc. unfold Connector.search_similar. run_method.
  rewrite Hc. rewrite call_unbound_helper. reflexivity.
Qed.

(** C2: the code at the failing input.  On a connected store,
    [add_to_collection] with two chunks, two embeddings and two metadata
    mappings returns no ids: it raises [AttributeError], and nothing is
    stored. *)
Theorem add_to_collection_returns_no_ids :
  let o := Connector.add_to_collection "docs" ["AAAA"; "BBBB"]
             [[1%Q; 0%Q]; [0%Q; 1%Q]] [∅; ∅] Scenario.connected_store in
  result o = Raised (AttributeError
                       "'ChromaConnector' object has no attribute '_get_collection'")
  /\ (forall ids, result o <> Returned ids)
  /\ Connector.engine (final o) = []
  /\ Connector.uuid_drawn (final o) = 0%nat.
Proof.
  cbv zeta. rewrite add_to_collection_connected by reflexivity.
  cbn [result final]. repeat split. intros ids. discriminate.
Qed.

(** C3: the code at the failing input.  Over a collection whose records
    are two components wide, [search_similar] with a query three
    components wide does not fail with a [ValueError] about the
    dimension: like the write before it and like a search with two
    components, it raises [AttributeError] at the lookup of the helper;
    and no table of widths is ever an attribute of the connector. *)
Theorem search_similar_raises_no_dimension_mismatch :
  let written := Connector.add_to_collection "docs" ["BBBB"] [[0%Q; 1%Q]] [∅]
                   Scenario.persisted_store in
  let wrong := Connector.search_similar "docs" [1%Q; 0%Q; 0%Q] 1 (final written) in
  let right := Connector.search_similar "docs" [1%Q; 0%Q] 1 (final written) in
  Engine.rows (Connector.engine (final written)) "docs"
    = Some [Engine.mkRow "r0" "AAAA" [1%Q; 0%Q] ∅]
  /\ result wrong = Raised (AttributeError
                       "'ChromaConnector' object has no attribute '_get_collection'")
  /\ (forall e, result wrong = Raised e -> ~ DimensionMismatch e)
  /\ result right = result wrong
  /\ Connector.width_tables (Connector.self (final wrong)) = [].
Proof.
  cbv zeta. rewrite add_to_collection_connected by reflexivity.
  cbn [final]. rewrite !search_similar_connected by reflexivity.
  cbn [result final]. repeat split.
  intros e [= <-]. unfold DimensionMismatch. cbn. discriminate.
Qed.

(** C6: the code at the failing input.  On a connected store,
    [add_to_collection] with two chunks and one embedding fails and leaves
    the store as it was, but the exception is the [AttributeError] of the
    helper lookup, raised before any length is looked at, not a
    [ValueError] about the lengths. *)
Theorem length_mismatch_raises_attribute_error :
  let o := Connector.add_to_collection "docs" ["AAAA"; "BBBB"] [[1%Q; 0%Q]]
             [∅; ∅] Scenario.persisted_store in
  result o = Raised (AttributeError
                       "'ChromaConnector' object has no attribute '_get_collection'")
  /\ (forall e, result o = Raised e -> ~ ValidationError e)
  /\ final o = Scenario.persisted_store.
Proof.
  cbv zeta. rewrite add_to_collection_connected by reflexivity.
  cbn [result final]. repeat split.
  intros e [= <-]. unfold ValidationError. cbn. discriminate.
Qed.

(** *** Before [connect] *)

Lemma init_has_no_client persist_directory :
  Connector.client (Connector.init persist_directory) = None.
Proof. reflexivity. Qed.

Lemma disconnect_drops_client w :
  Connector.client (Connector.self (final (Connector.disconnect w))) = None
  /\ Connector.collections (Connector.self (final (Connector.disconnect w))) = ∅.
Proof. split; reflexivity. Qed.

Lemma failed_connect_keeps_store w :
  Connector.engine_opens w = false ->
  final (Connector.connect w) = w
  /\ exists e, result (Connector.connect w) = Raised e.
Proof.
  intros H. unfold Connector.connect. run_method. rewrite H. cbn.
  split; [reflexivity | eauto].
Qed.

(** C8.  On a store whose [client] is [None] (a fresh connector, one whose
    [connect] failed, one after [disconnect]) each of [create_collection],
    [drop_collection], [list_collections], [add_to_collection] and
    [search_similar] raises [ConnectionError("Not connected to ChromaDB")]
    and does nothing else: the store is unchanged and nothing is logged. *)
Theorem operations_need_connect w :
  Connector.client (Connector.self w) = None ->
  (forall name,
     Connector.create_collection name w = mkOutcome w [] (Raised NotConnected))
  /\ (forall name,
        Connector.drop_collection name w = mkOutcome w [] (Raised NotConnected))
  /\ Connector.list_collections w = mkOutcome w [] (Raised NotConnected)
  /\ (forall name chunks embeddings metadata,
        Connector.add_to_collection name chunks embeddings metadata w
        = mkOutcome w [] (Raised NotConnected))
  /\ (forall name query_embedding k,
        Connector.search_similar name query_embedding k w
        = mkOutcome w [] (Raised NotConnected)).
Proof.
  intros Hnone.
  assert (Hn : Connector.not_client w = true)
    by (unfold Connector.not_client; rewrite Hnone; reflexivity).
  repeat split; intros;
    [ unfold Connector.create_collection
    | unfold Connector.drop_collection
    | unfold Connector.list_collections
    | unfold Connector.add_to_collection
    | unfold Connector.search_similar ];
    run_method; rewrite Hn; reflexivity.
Qed.

Lemma operations_need_connect_witness :
  let w := final (Connector.disconnect Scenario.persisted_store) in
  (forall name,
     Connector.create_collection name w = mkOutcome w [] (Raised NotConnected))
  /\ (forall name,
        Connector.drop_collection name w = mkOutcome w [] (Raised NotConnected))
  /\ Connector.list_collections w = mkOutcome w [] (Raised NotConnected)
  /\ (forall name chunks embeddings metadata,
        Connector.add_to_collection name chunks embeddings metadata w
        = mkOutcome w [] (Raised NotConnected))
  /\ (forall name query_embedding k,
        Connector.search_similar name query_embedding k w
        = mkOutcome w [] (Raised NotConnected)).
Proof.
  apply (operations_need_connect
           (final (Connector.disconnect Scenario.persisted_store))).
  reflexivity.
Defined.

(** *** Collections *)

Lemma names_app e name rows :
  Engine.names (e ++ [(name, rows)])%list = (Engine.names e ++ [name])%list.
Proof. unfold Engine.names. rewrite fmap_app. reflexivity. Qed.

(** How many collections of the engine bear a name. *)
Lemma count_absent (name : string) (l : list string) :
  name ∉ l -> length (filter (eq name) l) = 0%nat.
Proof.
  induction l as [|x l IH]; intros Hn; [reflexivity|].
  apply not_elem_of_cons in Hn as [Hx Hl].
  rewrite filter_cons_False by congruence. auto.
Qed.

Lemma count_present_NoDup (name : string) (l : list string) :
  NoDup l -> name ∈ l -> length (filter (eq name) l) = 1%nat.
Proof.
  induction 1 as [|x l Hx Hl IH]; intros Hin.
  - apply elem_of_nil in Hin as [].
  - apply elem_of_cons in Hin as [->|Hin].
    + rewrite filter_cons_True by reflexivity. cbn.
      rewrite count_absent by assumption. reflexivity.
    + rewrite filter_cons_False by (intros ->; contradiction). auto.
Qed.

(** The engine keeps its collection names distinct. *)
Lemma engine_create_collection_NoDup name e :
  NoDup (Engine.names e) ->
  NoDup (Engine.names (fst (Engine.create_collection name e))).
Proof.
  intros Hnd. unfold Engine.create_collection, py_in.
  case_bool_decide as Hin; cbn [fst]; [assumption|].
  rewrite names_app. apply NoDup_app. split; [assumption|].
  split; [|apply NoDup_singleton].
  intros x Hx Hx'. apply list_elem_of_singleton in Hx'. congruence.
Qed.

Lemma engine_names_NoDup name e :
  NoDup (Engine.names e) ->
  NoDup (Engine.names (fst (Engine.get_or_create_collection name e)))
  /\ NoDup (Engine.names (fst (Engine.delete_collection name e)))
  /\ (forall h embeddings documents metadatas ids,
        Engine.names (fst (Engine.add h embeddings documents metadatas ids e))
        = Engine.names e).
Proof.
  intros Hnd. split; [|split].
  - unfold Engine.get_or_create_collection, py_in.
    case_bool_decide as Hin; cbn [fst]; [assumption|].
    rewrite names_app. apply NoDup_app. split; [assumption|].
    split; [|apply NoDup_singleton].
    intros x Hx Hx'. apply list_elem_of_singleton in Hx'. congruence.
  - unfold Engine.delete_collection, py_in.
    case_bool_decide as Hin; cbn [fst]; [|assumption].
    clear Hin. unfold Engine.names in *.
    induction e as [|[n rs] e IH]; [constructor|].
    rewrite fmap_cons in Hnd. apply NoDup_cons in Hnd as [Hn Hnd].
    cbn. destruct (String.eqb n name); cbn; [auto|].
    apply NoDup_cons. split; [|auto].
    intros Hin. apply Hn. apply list_elem_of_fmap in Hin as [[n' rs'] [-> Hin]].
    apply list_elem_of_In, List.filter_In in Hin as [Hin _].
    apply list_elem_of_fmap. exists (n', rs'). split; [reflexivity|].
    apply list_elem_of_In. exact Hin.
  - intros. unfold Engine.add.
    destruct (negb _); cbn [fst]; [reflexivity|].
    destruct (negb _); cbn [fst]; [reflexivity|].
    clear Hnd. unfold Engine.names. induction e as [|[n rs] e IH]; [reflexivity|].
    cbn. f_equal; [|exact IH].
    destruct (String.eqb n _); reflexivity.
Qed.

(** [create_collection] on a connected store, case by case. *)
Lemma create_collection_existing w name :
  Connector.not_client w = false ->
  name ∈ Engine.names (Connector.engine w) ->
  Connector.create_collection name w =
  mkOutcome w [mkLog INFO ("Collection " ++ name ++ " already exists")]
    (Returned tt).
Proof.
  intros Hc Hin. unfold Connector.create_collection. run_method.
  rewrite Hc. unfold Engine.list_collections, py_in.
  rewrite bool_decide_eq_true_2 by assumption. reflexivity.
Qed.

Lemma create_collection_new w name :
  Connector.not_client w = false ->
  name ∉ Engine.names (Connector.engine w) ->
  Connector.create_collection name w =
  mkOutcome
    (Connector.set_self
       (fun s => Connector.set_collections
                   (<[name := Engine.mkHandle name]> (Connector.collections s)) s)
       (Connector.set_engine (Connector.engine w ++ [(name, [])])%list w))
    [mkLog INFO ("Created collection: " ++ name)]
    (Returned tt).
Proof.
  intros Hc Hin. unfold Connector.create_collection. run_method.
  rewrite Hc. unfold Engine.list_collections, Engine.create_collection, py_in.
  rewrite !bool_decide_eq_false_2 by assumption. reflexivity.
Qed.

(** C7.  On a connected store, [create_collection(name)] called twice in a
    row returns both times without raising; the second call, and the first
    when the collection exists already, logs "already exists" and changes
    nothing; and afterwards the engine holds exactly one collection of
    that name, its names still distinct. *)
Theorem create_collection_idempotent w name :
  Connector.not_client w = false ->
  NoDup (Engine.names (Connector.engine w)) ->
  let o1 := Connector.create_collection name w in
  let o2 := Connector.create_collection name (final o1) in
  result o1 = Returned tt
  /\ result o2 = Returned tt
  /\ final o2 = final o1
  /\ emitted o2 = [mkLog INFO ("Collection " ++ name ++ " already exists")]
  /\ length (filter (eq name) (Engine.names (Connector.engine (final o2)))) = 1%nat
  /\ NoDup (Engine.names (Connector.engine (final o2)))
  /\ (name ∈ Engine.names (Connector.engine w) ->
      final o1 = w
      /\ emitted o1 = [mkLog INFO ("Collection " ++ name ++ " already exists")]).
Proof.
  intros Hc Hnd. cbv zeta.
  destruct (decide (name ∈ Engine.names (Connector.engine w))) as [Hin|Hout].
  - rewrite (create_collection_existing w name Hc Hin). cbn [final result emitted].
    rewrite (create_collection_existing w name Hc Hin). cbn [final result emitted].
    repeat split; try assumption.
    apply count_present_NoDup; assumption.
  - rewrite (create_collection_new w name Hc Hout). cbn [final result emitted].
    set (w1 := Connector.set_self _ _).
    assert (Hc1 : Connector.not_client w1 = false) by exact Hc.
    assert (Hnames : Engine.names (Connector.engine w1)
                     = (Engine.names (Connector.engine w) ++ [name])%list)
      by (subst w1; cbn; apply names_app).
    assert (Hin1 : name ∈ Engine.names (Connector.engine w1))
      by (rewrite Hnames; set_solver).
    assert (Hnd1 : NoDup (Engine.names (Connector.engine w1))).
    { rewrite Hnames. apply NoDup_app. split; [assumption|].
      split; [|apply NoDup_singleton].
      intros x Hx Hx'. apply list_elem_of_singleton in Hx'. congruence. }
    rewrite (create_collection_existing w1 name Hc1 Hin1).
    cbn [final result emitted].
    repeat split; try assumption.
    + apply count_present_NoDup; assumption.
    + contradiction.
    + contradiction.
Qed.

Lemma create_collection_idempotent_witness :
  let o1 := Connector.create_collection "x" Scenario.connected_store in
  let o2 := Connector.create_collection "x" (final o1) in
  result o1 = Returned tt
  /\ result o2 = Returned tt
  /\ final o2 = final o1
  /\ emitted o2 = [mkLog INFO ("Collection " ++ "x" ++ " already exists")]
  /\ length (filter (eq "x") (Engine.names (Connector.engine (final o2)))) = 1%nat
  /\ NoDup (Engine.names (Connector.engine (final o2)))
  /\ ("x" ∈ Engine.names (Connector.engine Scenario.connected_store) ->
      final o1 = Scenario.connected_store
      /\ emitted o1 = [mkLog INFO ("Collection " ++ "x" ++ " already exists")]).
Proof.
  apply (create_collection_idempotent Scenario.connected_store "x").
  - reflexivity.
  - apply NoDup_nil_2.
Defined.

(* ===================================================================== *)
(** * Further properties of the code                                       *)
(* ===================================================================== *)

(** ** [find] *)

Lemma find_found haystack needle m :
  String.index 0 needle haystack = Some m ->
  Chunker.find haystack needle = Z.of_nat m.
Proof. unfold Chunker.find. intros ->. reflexivity. Qed.

(** [find] returns -1 only when the needle occurs nowhere, and otherwise
    the least offset at which the haystack reads the needle. *)
Lemma find_spec haystack needle :
  (Chunker.find haystack needle = -1 ->
   forall m, String.substring m (String.length needle) haystack <> needle)
  /\ (Chunker.find haystack needle <> -1 ->
      0 <= Chunker.find haystack needle
      /\ String.substring (Z.to_nat (Chunker.find haystack needle))
           (String.length needle) haystack = needle
      /\ forall p, (p < Z.to_nat (Chunker.find haystack needle))%nat ->
           String.substring p (String.length needle) haystack <> needle).
Proof.
  unfold Chunker.find.
  destruct (String.index 0 needle haystack) as [m|] eqn:Hidx.
  - split; [lia|]. intros _. rewrite Nat2Z.id.
    split; [lia|]. split.
    + eapply String.index_correct1; eassumption.
    + intros p Hp. eapply String.index_correct2; [eassumption|lia|exact Hp].
  - split; [|intros H; contradiction H; reflexivity].
    intros _ m.
    assert (Hne : needle <> EmptyString).
    { intros ->. apply String.index_correct4 in Hidx. lia. }
    eapply String.index_correct3; [eassumption|exact Hne|lia].
Qed.

Section ChunkerMore.
Context {lib : Splitter.Library}.

(** X1.  A call of [create_chunks] returns exactly when [split_text]
    returns, with one chunk per text, in the order of the texts and with
    the text as content; it logs the number of chunks and nothing else. *)
Theorem create_chunks_keeps_texts document chunk_size chunk_overlap self texts :
  Splitter.split_text
    (Chunker.text_splitter (Scenario.configured chunk_size chunk_overlap self))
    (content document) = Returned texts ->
  exists chunks,
    result (Chunker.create_chunks document chunk_size chunk_overlap self)
      = Returned chunks
    /\ content <$> chunks = texts
    /\ length chunks = length texts
    /\ emitted (Chunker.create_chunks document chunk_size chunk_overlap self)
       = [mkLog INFO ("Split document into " ++ pretty (length texts)
                      ++ " chunks")].
Proof.
  intros Hsplit. rewrite create_chunks_run. cbv zeta. rewrite Hsplit.
  cbn [result emitted]. eexists. split; [reflexivity|].
  split; [|split; [apply length_imap|reflexivity]].
  generalize (length texts) as n. intros n.
  apply list_eq. intros i.
  rewrite list_lookup_fmap, list_lookup_imap.
  destruct (texts !! i); reflexivity.
Qed.

(** X2.  When [split_text] raises, [create_chunks] returns no chunk at
    all: it logs the exception once, at ERROR level, and raises the same
    exception; the overrides of the call are stored all the same. *)
Theorem create_chunks_reraises document chunk_size chunk_overlap self e :
  Splitter.split_text
    (Chunker.text_splitter (Scenario.configured chunk_size chunk_overlap self))
    (content document) = Raised e ->
  Chunker.create_chunks document chunk_size chunk_overlap self
  = mkOutcome (Scenario.configured chunk_size chunk_overlap self)
      [mkLog ERROR ("Error chunking document: " ++ str_of_error e)]
      (Raised e).
Proof.
  intros Hsplit. rewrite create_chunks_run. cbv zeta. rewrite Hsplit.
  reflexivity.
Qed.

(** X3.  Chunk ids.  A parent without id, or with the empty string as id,
    gives chunks without id; otherwise the chunk at position [i] has the
    id [<parent id>_chunk_<i>], and the ids of the chunks are pairwise
    distinct. *)
Theorem chunk_ids document chunk_size chunk_overlap self chunks :
  result (Chunker.create_chunks document chunk_size chunk_overlap self)
    = Returned chunks ->
  (truthy_str (doc_id document) = false ->
   forall i c, chunks !! i = Some c -> doc_id c = None)
  /\ (forall parent_id,
        doc_id document = Some parent_id -> parent_id <> "" ->
        (forall i c, chunks !! i = Some c ->
           doc_id c = Some (parent_id ++ "_chunk_" ++ pretty i))
        /\ NoDup (doc_id <$> chunks)).
Proof.
  intros Hrun. split.
  - intros Hfalsy i c Hc.
    destruct (create_chunks_lookup _ _ _ _ _ _ _ Hrun Hc) as [t ->].
    unfold Chunker.chunk_doc. cbn [doc_id]. rewrite Hfalsy. reflexivity.
  - intros parent_id Hid Hne.
    assert (Htruthy : truthy_str (doc_id document) = true).
    { rewrite Hid. cbn. destruct (String.eqb_spec parent_id ""); [contradiction|].
      reflexivity. }
    assert (Hat : forall i c, chunks !! i = Some c ->
              doc_id c = Some (parent_id ++ "_chunk_" ++ pretty i)).
    { intros i c Hc.
      destruct (create_chunks_lookup _ _ _ _ _ _ _ Hrun Hc) as [t ->].
      unfold Chunker.chunk_doc. cbn [doc_id]. rewrite Htruthy, Hid.
      reflexivity. }
    split; [exact Hat|].
    apply NoDup_alt. intros i j x Hi Hj.
    rewrite list_lookup_fmap in Hi, Hj.
    destruct (chunks !! i) as [ci|] eqn:Hci; [|discriminate].
    destruct (chunks !! j) as [cj|] eqn:Hcj; [|discriminate].
    cbn in Hi, Hj. rewrite (Hat _ _ Hci) in Hi. rewrite (Hat _ _ Hcj) in Hj.
    rewrite <- Hj in Hi. injection Hi as Hi.
    apply (inj (String.app parent_id)) in Hi.
    apply (inj (String.app "_chunk_")) in Hi.
    apply (inj pretty) in Hi. exact Hi.
Qed.

(** X4.  With [add_start_index] set, the [chunk_start_index] of a chunk
    is [content.find(chunk text)]: -1 when the parent's content nowhere
    reads the chunk's text, and otherwise the least offset at which it
    does. *)
Theorem chunk_start_index_is_first_occurrence
    document chunk_size chunk_overlap self chunks i c :
  result (Chunker.create_chunks document chunk_size chunk_overlap self)
    = Returned chunks ->
  Chunker.add_start_index self = true ->
  chunks !! i = Some c ->
  exists z,
    metadata c !! "chunk_start_index" = Some (PyInt z)
    /\ (z = -1 ->
        forall m, String.substring m (String.length (content c))
                    (content document) <> content c)
    /\ (z <> -1 ->
        0 <= z
        /\ String.substring (Z.to_nat z) (String.length (content c))
             (content document) = content c
        /\ forall p, (p < Z.to_nat z)%nat ->
             String.substring p (String.length (content c))
               (content document) <> content c).
Proof.
  intros Hrun Hflag Hc.
  destruct (create_chunks_lookup _ _ _ _ _ _ _ Hrun Hc) as [t ->].
  exists (Chunker.find (content document) t).
  split.
  - unfold Chunker.chunk_doc. rewrite configured_add_start_index, Hflag.
    cbn [metadata]. apply lookup_insert_eq.
  - rewrite chunk_doc_content. apply find_spec.
Qed.

(** X5.  Chunks with the same text carry the same [chunk_start_index],
    wherever in the parent they come from (the offset is looked up by
    text, not by position). *)
Theorem equal_texts_share_start_index
    document chunk_size chunk_overlap self chunks i j ci cj :
  result (Chunker.create_chunks document chunk_size chunk_overlap self)
    = Returned chunks ->
  chunks !! i = Some ci ->
  chunks !! j = Some cj ->
  content ci = content cj ->
  metadata ci !! "chunk_start_index" = metadata cj !! "chunk_start_index".
Proof.
  intros Hrun Hi Hj Heq.
  destruct (create_chunks_lookup _ _ _ _ _ _ _ Hrun Hi) as [ti ->].
  destruct (create_chunks_lookup _ _ _ _ _ _ _ Hrun Hj) as [tj ->].
  rewrite !chunk_doc_content in Heq. subst tj.
  unfold Chunker.chunk_doc.
  destruct (Chunker.add_start_index _); cbn [metadata].
  - rewrite !lookup_insert_eq. reflexivity.
  - rewrite !lookup_insert_ne by discriminate. reflexivity.
Qed.

(** X6.  The keys of a chunk's metadata are the keys of the parent's
    together with the keys the chunker writes: [chunk_index],
    [total_chunks], and [chunk_start_index] exactly when [add_start_index]
    is set. *)
Theorem chunk_metadata_keys document chunk_size chunk_overlap self chunks i c :
  result (Chunker.create_chunks document chunk_size chunk_overlap self)
    = Returned chunks ->
  chunks !! i = Some c ->
  dom (metadata c)
  = dom (metadata document) ∪ list_to_set (Scenario.chunk_keys self).
Proof.
  intros Hrun Hc.
  destruct (create_chunks_lookup _ _ _ _ _ _ _ Hrun Hc) as [t ->].
  unfold Chunker.chunk_doc, Scenario.chunk_keys.
  rewrite configured_add_start_index.
  destruct (Chunker.add_start_index self); cbn [metadata list_to_set];
    rewrite !dom_insert_L; apply set_eq; intros k;
    rewrite !elem_of_union, !elem_of_singleton, elem_of_empty; tauto.
Qed.

(** X7.  Calls compose: no call changes the separator, the length
    function or [add_start_index], and after two calls the stored size and
    overlap are those of the last call that passed them. *)
Theorem overrides_compose document1 document2 cs1 co1 cs2 co2 self :
  let after :=
    final (Chunker.create_chunks document2 cs2 co2
             (final (Chunker.create_chunks document1 cs1 co1 self))) in
  after = Scenario.configured
            (match cs2 with Some _ => cs2 | None => cs1 end)
            (match co2 with Some _ => co2 | None => co1 end) self
  /\ Splitter.separator (Chunker.text_splitter after)
     = Splitter.separator (Chunker.text_splitter self)
  /\ Splitter.length_function (Chunker.text_splitter after)
     = Splitter.length_function (Chunker.text_splitter self)
  /\ Chunker.add_start_index after = Chunker.add_start_index self.
Proof.
  cbv zeta.
  assert (Hfinal : forall d cs co s,
            final (Chunker.create_chunks d cs co s) = Scenario.configured cs co s).
  { intros. rewrite create_chunks_run. cbv zeta.
    destruct (Splitter.split_text _ _); reflexivity. }
  rewrite !Hfinal.
  destruct cs1, co1, cs2, co2; repeat split.
Qed.

End ChunkerMore.

(** *** The properties above on the reference document *)

Lemma create_chunks_keeps_texts_witness :
  exists chunks,
    result (Chunker.create_chunks (lib := Splitter.spec_library)
              Scenario.abc_document None None (Scenario.chunker 9 0))
      = Returned chunks
    /\ content <$> chunks = ["AAAA"; "BBBB"; "CCCC"]
    /\ length chunks = length ["AAAA"; "BBBB"; "CCCC"]
    /\ emitted (Chunker.create_chunks (lib := Splitter.spec_library)
                  Scenario.abc_document None None (Scenario.chunker 9 0))
       = [mkLog INFO ("Split document into "
                      ++ pretty (length ["AAAA"; "BBBB"; "CCCC"]) ++ " chunks")].
Proof.
  apply (create_chunks_keeps_texts (lib := Splitter.spec_library)
           Scenario.abc_document None None (Scenario.chunker 9 0)).
  vm_compute. reflexivity.
Defined.

Lemma chunk_ids_witness :
  (truthy_str (doc_id Scenario.abc_document) = false ->
   forall i c, Scenario.abc_chunks !! i = Some c -> doc_id c = None)
  /\ (forall parent_id,
        doc_id Scenario.abc_document = Some parent_id -> parent_id <> "" ->
        (forall i c, Scenario.abc_chunks !! i = Some c ->
           doc_id c = Some (parent_id ++ "_chunk_" ++ pretty i))
        /\ NoDup (doc_id <$> Scenario.abc_chunks)).
Proof.
  apply (chunk_ids (lib := Splitter.spec_library)
           Scenario.abc_document None None (Scenario.chunker 9 0)).
  vm_compute. reflexivity.
Defined.

Lemma chunk_start_index_is_first_occurrence_witness :
  exists z,
    metadata Scenario.abc_chunk_1 !! "chunk_start_index" = Some (PyInt z)
    /\ (z = -1 ->
        forall m, String.substring m (String.length (content Scenario.abc_chunk_1))
                    (content Scenario.abc_document) <> content Scenario.abc_chunk_1)
    /\ (z <> -1 ->
        0 <= z
        /\ String.substring (Z.to_nat z)
             (String.length (content Scenario.abc_chunk_1))
             (content Scenario.abc_document) = content Scenario.abc_chunk_1
        /\ forall p, (p < Z.to_nat z)%nat ->
             String.substring p (String.length (content Scenario.abc_chunk_1))
               (content Scenario.abc_document) <> content Scenario.abc_chunk_1).
Proof.
  apply (chunk_start_index_is_first_occurrence (lib := Splitter.spec_library)
           Scenario.abc_document None None (Scenario.chunker 9 0)
           Scenario.abc_chunks 1%nat Scenario.abc_chunk_1);
    vm_compute; reflexivity.
Defined.

Lemma equal_texts_share_start_index_witness :
  Reference.repeated_chunks !! 0%nat = Some (Reference.repeated_chunk 0)
  /\ Reference.repeated_chunks !! 2%nat = Some (Reference.repeated_chunk 2)
  /\ metadata (Reference.repeated_chunk 0) !! "chunk_start_index"
     = metadata (Reference.repeated_chunk 2) !! "chunk_start_index".
Proof.
  split; [vm_compute; reflexivity|]. split; [vm_compute; reflexivity|].
  apply (equal_texts_share_start_index (lib := Splitter.spec_library)
           Reference.repeated_document None None (Scenario.chunker 9 0)
           Reference.repeated_chunks 0%nat 2%nat);
    vm_compute; reflexivity.
Defined.

Lemma create_chunks_reraises_witness :
  Chunker.create_chunks (lib := Reference.failing_library)
    Scenario.abc_document (Some 9) None (Scenario.chunker 256 20)
  = mkOutcome (Scenario.configured (Some 9) None (Scenario.chunker 256 20))
      [mkLog ERROR ("Error chunking document: "
                    ++ str_of_error (TypeError "expected a string"))]
      (Raised (TypeError "expected a string")).
Proof.
  apply (create_chunks_reraises (lib := Reference.failing_library)).
  reflexivity.
Defined.

Lemma chunk_metadata_keys_witness :
  dom (metadata Scenario.abc_chunk_1)
  = dom (metadata Scenario.abc_document)
    ∪ list_to_set (Scenario.chunk_keys (Scenario.chunker 9 0)).
Proof.
  apply (chunk_metadata_keys (lib := Splitter.spec_library)
           Scenario.abc_document None None (Scenario.chunker 9 0)
           Scenario.abc_chunks 1%nat);
    vm_compute; reflexivity.
Defined.

(** ** Loading documents *)

Lemma str_app_assoc (a b c : string) : (a ++ b) ++ c = a ++ (b ++ c).
Proof.
  induction a as [|x a IH]; [reflexivity|].
  change (String x ((a ++ b) ++ c) = String x (a ++ (b ++ c))).
  f_equal. exact IH.
Qed.

Lemma str_app_cons (x : Ascii.ascii) (a b : string) :
  String x a ++ b = String x (a ++ b).
Proof. reflexivity. Qed.

Lemma str_app_empty_l (b : string) : "" ++ b = b.
Proof. reflexivity. Qed.

Section LoaderFacts.
Context {platform : Loader.Platform}.

Lemma rstrip_app_space s c :
  Loader.isspace c = true ->
  Loader.rstrip (s ++ String c "") = Loader.rstrip s.
Proof.
  intros Hc. induction s as [|a s IH].
  - rewrite str_app_empty_l. cbn. rewrite Hc. reflexivity.
  - rewrite str_app_cons. cbn [Loader.rstrip]. rewrite IH. reflexivity.
Qed.

Lemma strip_app_blank_line s :
  Loader.isspace (Ascii.ascii_of_nat 10) = true ->
  Loader.strip (s ++ (nl ++ nl)) = Loader.strip s.
Proof.
  intros Hnl. unfold Loader.strip, nl.
  rewrite <- str_app_assoc.
  rewrite !rstrip_app_space by exact Hnl. reflexivity.
Qed.

Lemma extract_pages_all texts acc :
  Loader.extract_pages (Returned <$> texts) acc =
  Returned (match texts with
            | [] => acc
            | _ => acc ++ (String.concat (nl ++ nl) texts ++ (nl ++ nl))
            end).
Proof.
  revert acc. induction texts as [|t rest IH]; intros acc; [reflexivity|].
  cbn [fmap list_fmap Loader.extract_pages].
  change (list_fmap _ _ Returned rest) with (Returned <$> rest).
  rewrite IH. destruct rest as [|t' rest']; [reflexivity|].
  f_equal. cbn [String.concat]. rewrite !str_app_assoc. reflexivity.
Qed.

Lemma extract_pages_raising texts e rest acc :
  Loader.extract_pages ((Returned <$> texts) ++ Raised e :: rest)%list acc
  = Raised e.
Proof.
  revert acc. induction texts as [|t texts IH]; intros acc; [reflexivity|].
  cbn. apply IH.
Qed.

(** X8.  [convert_pdf_to_text] returns the page texts joined by blank
    lines, stripped: the blank line appended after the last page never
    shows, and a PDF without pages gives the empty string.  Nothing is
    logged. *)
Theorem convert_pdf_joins_pages file_path texts :
  Loader.isspace (Ascii.ascii_of_nat 10) = true ->
  Loader.pdf_pages file_path = Returned (Returned <$> texts) ->
  Loader.convert_pdf_to_text file_path tt
  = mkOutcome tt []
      (Returned (Loader.strip (String.concat (nl ++ nl) texts))).
Proof.
  intros Hnl Hpages. unfold Loader.convert_pdf_to_text. run_method.
  rewrite Hpages. cbv beta iota. rewrite extract_pages_all.
  cbv beta iota. destruct texts as [|t rest].
  - reflexivity.
  - rewrite str_app_empty_l, (strip_app_blank_line _ Hnl). reflexivity.
Qed.

(** X9.  [convert_pdf_to_text] is all or nothing: when the file cannot be
    opened or parsed, or when some page fails to extract, the text of the
    pages before it is dropped, the exception is logged once at ERROR
    level and raised again. *)
Theorem convert_pdf_reraises file_path e :
  (Loader.pdf_pages file_path = Raised e
   \/ exists texts rest,
        Loader.pdf_pages file_path
        = Returned ((Returned <$> texts) ++ Raised e :: rest)%list) ->
  Loader.convert_pdf_to_text file_path tt
  = mkOutcome tt
      [mkLog ERROR ("Error converting PDF to text: " ++ str_of_error e)]
      (Raised e).
Proof.
  intros [Hopen | (texts & rest & Hpages)];
    unfold Loader.convert_pdf_to_text; run_method.
  - rewrite Hopen. reflexivity.
  - rewrite Hpages. cbv beta iota. rewrite extract_pages_raising. reflexivity.
Qed.

(** X10.  [load_data] refuses every file whose suffix, lower-cased, is
    none of [.pdf], [.txt], [.text]: it raises [ValueError("Unsupported
    file format: <suffix as written>")], logged once, whatever the file
    holds. *)
Theorem load_data_unsupported_format file_path :
  Loader.lower (Loader.path_suffix file_path) <> ".pdf" ->
  Loader.lower (Loader.path_suffix file_path) <> ".txt" ->
  Loader.lower (Loader.path_suffix file_path) <> ".text" ->
  Loader.load_data file_path tt
  = mkOutcome tt
      [mkLog ERROR ("Error loading document: Unsupported file format: "
                    ++ Loader.path_suffix file_path)]
      (Raised (ValueError ("Unsupported file format: "
                           ++ Loader.path_suffix file_path))).
Proof.
  intros Hpdf Htxt Htext. unfold Loader.load_data. run_method.
  destruct (String.eqb_spec (Loader.lower (Loader.path_suffix file_path)) ".pdf");
    [contradiction|].
  unfold py_in. rewrite bool_decide_eq_false_2; [reflexivity|].
  intros Hin. apply elem_of_cons in Hin as [Hin|Hin]; [contradiction|].
  apply list_elem_of_singleton in Hin. contradiction.
Qed.

(** X11.  A text file ([.txt] or [.text], in any letter case that
    lower-cases to these) is loaded as a document without id whose content
    is the file's text and whose metadata holds exactly [source] (the path
    as given), [file_type] (the lower-cased suffix) and [file_name];
    nothing is logged.  When reading fails the exception is logged once
    and raised again. *)
Theorem load_data_text_file file_path :
  (Loader.lower (Loader.path_suffix file_path) = ".txt"
   \/ Loader.lower (Loader.path_suffix file_path) = ".text") ->
  match Loader.read_text file_path with
  | Returned text =>
      exists d,
        Loader.load_data file_path tt = mkOutcome tt [] (Returned d)
        /\ content d = text
        /\ doc_id d = None
        /\ metadata d !! "source" = Some (PyStr file_path)
        /\ metadata d !! "file_type"
           = Some (PyStr (Loader.lower (Loader.path_suffix file_path)))
        /\ metadata d !! "file_name" = Some (PyStr (Loader.path_name file_path))
        /\ dom (metadata d) = {[ "source"; "file_type"; "file_name" ]}
  | Raised e =>
      Loader.load_data file_path tt
      = mkOutcome tt
          [mkLog ERROR ("Error loading document: " ++ str_of_error e)]
          (Raised e)
  end.
Proof.
  intros Hsuffix. unfold Loader.load_data. run_method.
  assert (Hpdf : String.eqb (Loader.lower (Loader.path_suffix file_path)) ".pdf"
                 = false)
    by (destruct Hsuffix as [-> | ->]; reflexivity).
  assert (Hin : py_in (Loader.lower (Loader.path_suffix file_path))
                  [".txt"; ".text"] = true)
    by (destruct Hsuffix as [-> | ->]; reflexivity).
  rewrite Hpdf, Hin.
  destruct (Loader.read_text file_path) as [text|e]; cbv beta iota.
  - eexists. split; [reflexivity|]. cbn [content doc_id metadata].
    split; [reflexivity|]. split; [reflexivity|].
    split; [rewrite !lookup_insert_ne by discriminate; apply lookup_singleton_eq|].
    split; [rewrite lookup_insert_ne by discriminate; apply lookup_insert_eq|].
    split; [apply lookup_insert_eq|].
    rewrite !dom_insert_L, dom_singleton_L. apply set_eq. intros k.
    rewrite !elem_of_union, !elem_of_singleton. tauto.
  - reflexivity.
Qed.

(** X12.  A PDF (suffix lower-casing to [.pdf]) is loaded through
    [convert_pdf_to_text]: on success the document carries the converted
    text and [file_type] [.pdf]; a failure of the conversion is logged
    twice, by the conversion and by [load_data], and the same exception is
    raised. *)
Theorem load_data_pdf file_path :
  Loader.lower (Loader.path_suffix file_path) = ".pdf" ->
  match result (Loader.convert_pdf_to_text file_path tt) with
  | Returned text =>
      exists d,
        result (Loader.load_data file_path tt) = Returned d
        /\ content d = text
        /\ doc_id d = None
        /\ metadata d !! "source" = Some (PyStr file_path)
        /\ metadata d !! "file_type" = Some (PyStr ".pdf")
        /\ metadata d !! "file_name" = Some (PyStr (Loader.path_name file_path))
  | Raised e =>
      Loader.load_data file_path tt
      = mkOutcome tt
          [mkLog ERROR ("Error converting PDF to text: " ++ str_of_error e);
           mkLog ERROR ("Error loading document: " ++ str_of_error e)]
          (Raised e)
  end.
Proof.
  intros Hsuffix. unfold Loader.load_data.
  cbv [mbind M_bind bind mret M_ret ret raise logger_error try_except
       result final emitted].
  rewrite Hsuffix. cbn [String.eqb Ascii.eqb Bool.eqb].
  unfold Loader.convert_pdf_to_text.
  cbv [mbind M_bind bind mret M_ret ret raise logger_error try_except
       lift_result result final emitted].
  destruct (Loader.pdf_pages file_path) as [pages|e]; cbv beta iota.
  - destruct (Loader.extract_pages pages "") as [text|e]; cbv beta iota.
    + eexists. split; [reflexivity|]. cbn [content doc_id metadata].
      split; [reflexivity|]. split; [reflexivity|].
      split; [rewrite !lookup_insert_ne by discriminate; apply lookup_singleton_eq|].
      split; [rewrite lookup_insert_ne by discriminate; apply lookup_insert_eq|].
      apply lookup_insert_eq.
    + reflexivity.
  - reflexivity.
Qed.

End LoaderFacts.

(** *** Loading on the reference platform *)

Lemma convert_pdf_joins_pages_witness :
  Loader.convert_pdf_to_text (platform := Reference.platform) "paper.pdf" tt
  = mkOutcome tt []
      (Returned (Loader.strip (platform := Reference.platform)
                   (String.concat (nl ++ nl) ["page one"; "page two"]))).
Proof.
  apply (convert_pdf_joins_pages (platform := Reference.platform)
           "paper.pdf" ["page one"; "page two"]); reflexivity.
Defined.

Lemma convert_pdf_reraises_witness :
  Loader.convert_pdf_to_text (platform := Reference.platform) "damaged.pdf" tt
  = mkOutcome tt
      [mkLog ERROR ("Error converting PDF to text: "
                    ++ str_of_error (KeyError "/Contents"))]
      (Raised (KeyError "/Contents")).
Proof.
  apply (convert_pdf_reraises (platform := Reference.platform) "damaged.pdf").
  right. exists ["page one"], [Returned "page three"]. reflexivity.
Defined.

Lemma load_data_unsupported_format_witness :
  Loader.load_data (platform := Reference.platform) "image.bin" tt
  = mkOutcome tt
      [mkLog ERROR ("Error loading document: Unsupported file format: "
                    ++ Loader.path_suffix (Platform := Reference.platform)
                         "image.bin")]
      (Raised (ValueError ("Unsupported file format: "
                           ++ Loader.path_suffix (Platform := Reference.platform)
                                "image.bin"))).
Proof.
  apply (load_data_unsupported_format (platform := Reference.platform)
           "image.bin"); vm_compute; discriminate.
Defined.

Lemma load_data_text_file_witness :
  exists d,
    Loader.load_data (platform := Reference.platform) "notes.TXT" tt
    = mkOutcome tt [] (Returned d)
    /\ content d = "some notes"
    /\ doc_id d = None
    /\ metadata d !! "source" = Some (PyStr "notes.TXT")
    /\ metadata d !! "file_type" = Some (PyStr ".txt")
    /\ metadata d !! "file_name" = Some (PyStr "notes.TXT")
    /\ dom (metadata d) = {[ "source"; "file_type"; "file_name" ]}.
Proof.
  exact (load_data_text_file (platform := Reference.platform) "notes.TXT"
           (or_introl eq_refl)).
Defined.

Lemma load_data_pdf_witness :
  Loader.load_data (platform := Reference.platform) "broken.pdf" tt
  = mkOutcome tt
      [mkLog ERROR ("Error converting PDF to text: "
                    ++ str_of_error (ValueError "not a PDF"));
       mkLog ERROR ("Error loading document: "
                    ++ str_of_error (ValueError "not a PDF"))]
      (Raised (ValueError "not a PDF")).
Proof.
  exact (load_data_pdf (platform := Reference.platform) "broken.pdf" eq_refl).
Defined.

(** ** From a file to its chunks *)

Lemma chunk_doc_keeps self document total i t k :
  k <> "chunk_index" -> k <> "total_chunks" -> k <> "chunk_start_index" ->
  metadata (Chunker.chunk_doc self document total i t) !! k
  = metadata document !! k.
Proof.
  intros H1 H2 H3. unfold Chunker.chunk_doc.
  destruct (Chunker.add_start_index self); cbn [metadata];
    rewrite !lookup_insert_ne by congruence; reflexivity.
Qed.

Section Pipeline.
Context {platform : Loader.Platform} {lib : Splitter.Library}.

Lemma load_data_returned file_path d :
  result (Loader.load_data file_path tt) = Returned d ->
  exists text,
    d = mkDocument text
          (<["file_name" := PyStr (Loader.path_name file_path)]>
             (<["file_type" := PyStr (Loader.lower (Loader.path_suffix file_path))]>
                {[ "source" := PyStr file_path ]}))
          None.
Proof.
  unfold Loader.load_data.
  cbv [mbind M_bind bind mret M_ret ret raise logger_error try_except
       lift_result result final emitted].
  destruct (String.eqb _ ".pdf").
  - destruct (Loader.convert_pdf_to_text file_path tt) as [[] logs [text|e]];
      cbv beta iota; intros [= <-]; eauto.
  - destruct (py_in _ _).
    + destruct (Loader.read_text file_path) as [text|e];
        cbv beta iota; intros [= <-]; eauto.
    + cbv beta iota. discriminate.
Qed.

(** X13.  Provenance survives the pipeline: every chunk of a document
    made by [load_data] carries the [source], [file_type] and [file_name]
    of the file, and has no id (a loaded document has none). *)
Theorem loaded_chunks_carry_provenance
    file_path d chunk_size chunk_overlap self chunks i c :
  result (Loader.load_data file_path tt) = Returned d ->
  result (Chunker.create_chunks d chunk_size chunk_overlap self)
    = Returned chunks ->
  chunks !! i = Some c ->
  metadata c !! "source" = Some (PyStr file_path)
  /\ metadata c !! "file_type"
     = Some (PyStr (Loader.lower (Loader.path_suffix file_path)))
  /\ metadata c !! "file_name" = Some (PyStr (Loader.path_name file_path))
  /\ doc_id c = None.
Proof.
  intros Hload Hrun Hc.
  destruct (load_data_returned _ _ Hload) as [text ->].
  destruct (create_chunks_lookup _ _ _ _ _ _ _ Hrun Hc) as [t ->].
  rewrite !chunk_doc_keeps by discriminate. cbn [metadata].
  split; [rewrite !lookup_insert_ne by discriminate; apply lookup_singleton_eq|].
  split; [rewrite lookup_insert_ne by discriminate; apply lookup_insert_eq|].
  split; [apply lookup_insert_eq|]. reflexivity.
Qed.

End Pipeline.

Lemma loaded_chunks_carry_provenance_witness :
  metadata Reference.notes_chunk_0 !! "source" = Some (PyStr "notes.TXT")
  /\ metadata Reference.notes_chunk_0 !! "file_type"
     = Some (PyStr (Loader.lower (Platform := Reference.platform)
                      (Loader.path_suffix (Platform := Reference.platform)
                         "notes.TXT")))
  /\ metadata Reference.notes_chunk_0 !! "file_name"
     = Some (PyStr (Loader.path_name (Platform := Reference.platform)
                      "notes.TXT"))
  /\ doc_id Reference.notes_chunk_0 = None.
Proof.
  apply (loaded_chunks_carry_provenance (platform := Reference.platform)
           (lib := Splitter.spec_library)
           "notes.TXT" Reference.notes_document None None
           (Scenario.chunker 9 0) Reference.notes_chunks 0%nat);
    vm_compute; reflexivity.
Defined.

(** ** More on [add_metadata] *)

Lemma add_metadata_run h doc m o target source :
  Processor.documents h !! doc = Some o ->
  Processor.dicts h !! Processor.o_metadata o = Some target ->
  Processor.dicts h !! m = Some source ->
  Processor.add_metadata doc m h
  = mkOutcome
      (Processor.mkHeap
         (<[Processor.o_metadata o := Processor.dict_update target source]>
            (Processor.dicts h))
         (Processor.documents h))
      [] (Returned doc).
Proof.
  intros Hdoc Htarget Hsource. unfold Processor.add_metadata.
  cbv [mbind M_bind bind mret M_ret ret get put raise result final emitted].
  rewrite Hdoc, Htarget, Hsource. reflexivity.
Qed.

Lemma dict_update_same (target : gmap string PyVal) :
  Processor.dict_update target target = target.
Proof.
  unfold Processor.dict_update. apply map_eq. intros k.
  rewrite lookup_union. destruct (target !! k); reflexivity.
Qed.

Lemma dict_update_empty (target : gmap string PyVal) :
  Processor.dict_update target ∅ = target.
Proof.
  unfold Processor.dict_update. apply map_eq. intros k.
  rewrite lookup_union, lookup_empty. destruct (target !! k); reflexivity.
Qed.

Lemma dict_update_twice (target source : gmap string PyVal) :
  Processor.dict_update (Processor.dict_update target source) source
  = Processor.dict_update target source.
Proof.
  unfold Processor.dict_update. apply map_eq. intros k.
  rewrite !lookup_union. destruct (source !! k), (target !! k); reflexivity.
Qed.

(** X14.  [add_metadata] with an empty mapping, or with the document's
    own metadata mapping, changes nothing at all and returns the
    document. *)
Theorem add_metadata_nothing_to_add h doc m o target source :
  Processor.documents h !! doc = Some o ->
  Processor.dicts h !! Processor.o_metadata o = Some target ->
  Processor.dicts h !! m = Some source ->
  m = Processor.o_metadata o \/ source = ∅ ->
  Processor.add_metadata doc m h = mkOutcome h [] (Returned doc).
Proof.
  intros Hdoc Htarget Hsource Hcase.
  rewrite (add_metadata_run _ _ _ _ _ _ Hdoc Htarget Hsource).
  assert (Hsame : Processor.dict_update target source = target).
  { destruct Hcase as [-> | ->].
    - rewrite Htarget in Hsource. injection Hsource as <-.
      apply dict_update_same.
    - apply dict_update_empty. }
  rewrite Hsame, (insert_id _ _ _ Htarget). destruct h; reflexivity.
Qed.

(** X15.  [add_metadata] is idempotent: repeating the call with the same
    arguments leaves the heap as the first call left it. *)
Theorem add_metadata_idempotent h doc m o target source :
  Processor.documents h !! doc = Some o ->
  Processor.dicts h !! Processor.o_metadata o = Some target ->
  Processor.dicts h !! m = Some source ->
  let h1 := final (Processor.add_metadata doc m h) in
  Processor.add_metadata doc m h1 = mkOutcome h1 [] (Returned doc).
Proof.
  intros Hdoc Htarget Hsource. cbv zeta.
  rewrite (add_metadata_run _ _ _ _ _ _ Hdoc Htarget Hsource). cbn [final].
  destruct (decide (m = Processor.o_metadata o)) as [->|Hne].
  - rewrite Htarget in Hsource. injection Hsource as <-.
    rewrite dict_update_same, (insert_id _ _ _ Htarget).
    rewrite (add_metadata_run _ _ _ o target target); try assumption.
    rewrite dict_update_same, (insert_id _ _ _ Htarget). reflexivity.
  - rewrite (add_metadata_run _ _ _ o (Processor.dict_update target source) source).
    + cbn [Processor.dicts Processor.documents].
      rewrite dict_update_twice, insert_insert_eq. reflexivity.
    + exact Hdoc.
    + cbn [Processor.dicts]. apply lookup_insert_eq.
    + cbn [Processor.dicts]. rewrite lookup_insert_ne by congruence.
      exact Hsource.
Qed.

(** X16.  Merges accumulate and the later one wins: after
    [add_metadata(d, m1)] and then [add_metadata(d, m2)], a key of the
    document's metadata holds the value of [m2] if [m2] has the key,
    else that of [m1] if [m1] has it, else the value it had. *)
Theorem add_metadata_later_wins h doc m1 m2 o target source1 source2 :
  Processor.documents h !! doc = Some o ->
  Processor.dicts h !! Processor.o_metadata o = Some target ->
  Processor.dicts h !! m1 = Some source1 ->
  Processor.dicts h !! m2 = Some source2 ->
  m2 <> Processor.o_metadata o ->
  let h2 := final (Processor.add_metadata doc m2
                     (final (Processor.add_metadata doc m1 h))) in
  exists merged,
    Processor.read_document h2 doc
    = Some (mkDocument (Processor.o_content o) merged (Processor.o_doc_id o))
    /\ forall k,
         merged !! k =
         match source2 !! k with
         | Some v => Some v
         | None => match source1 !! k with
                   | Some v => Some v
                   | None => target !! k
                   end
         end.
Proof.
  intros Hdoc Htarget H1 H2 Hne. cbv zeta.
  rewrite (add_metadata_run _ _ _ _ _ _ Hdoc Htarget H1). cbn [final].
  rewrite (add_metadata_run _ _ _ o (Processor.dict_update target source1) source2).
  - cbn [final]. eexists. split.
    + unfold Processor.read_document. cbn [Processor.documents Processor.dicts].
      rewrite Hdoc. cbn. rewrite lookup_insert_eq. reflexivity.
    + intros k. rewrite !dict_update_lookup. reflexivity.
  - exact Hdoc.
  - cbn [Processor.dicts]. apply lookup_insert_eq.
  - cbn [Processor.dicts]. rewrite lookup_insert_ne by congruence. exact H2.
Qed.

(** X17.  The update is seen through every document that refers to the
    same mapping object, and through no other: after [add_metadata(d1,
    m)], a document [d2] sharing [d1]'s mapping reads the merged metadata,
    and a document with a mapping of its own reads what it read before. *)
Theorem add_metadata_shared_mapping h d1 d2 m o1 o2 target source :
  Processor.documents h !! d1 = Some o1 ->
  Processor.documents h !! d2 = Some o2 ->
  Processor.dicts h !! Processor.o_metadata o1 = Some target ->
  Processor.dicts h !! m = Some source ->
  let h1 := final (Processor.add_metadata d1 m h) in
  (Processor.o_metadata o2 = Processor.o_metadata o1 ->
   Processor.read_document h1 d2
   = Some (mkDocument (Processor.o_content o2)
             (Processor.dict_update target source) (Processor.o_doc_id o2)))
  /\ (Processor.o_metadata o2 <> Processor.o_metadata o1 ->
      Processor.read_document h1 d2 = Processor.read_document h d2).
Proof.
  intros Hd1 Hd2 Htarget Hsource. cbv zeta.
  rewrite (add_metadata_run _ _ _ _ _ _ Hd1 Htarget Hsource). cbn [final].
  unfold Processor.read_document. cbn [Processor.documents Processor.dicts].
  rewrite Hd2. cbn. split.
  - intros ->. rewrite lookup_insert_eq. reflexivity.
  - intros Hne. rewrite lookup_insert_ne by congruence. reflexivity.
Qed.

Lemma add_metadata_nothing_to_add_witness :
  Processor.add_metadata 3%positive 1%positive Scenario.heap0
  = mkOutcome Scenario.heap0 [] (Returned 3%positive).
Proof.
  apply (add_metadata_nothing_to_add Scenario.heap0 3%positive 1%positive
           (Processor.mkDocumentObj "text" 1%positive None)
           {[ "source" := PyStr "a.txt" ]} {[ "source" := PyStr "a.txt" ]});
    try (vm_compute; reflexivity).
  left. reflexivity.
Defined.

Lemma add_metadata_idempotent_witness :
  let h1 := final (Processor.add_metadata 3%positive 2%positive Scenario.heap0) in
  Processor.add_metadata 3%positive 2%positive h1
  = mkOutcome h1 [] (Returned 3%positive).
Proof.
  apply (add_metadata_idempotent Scenario.heap0 3%positive 2%positive
           (Processor.mkDocumentObj "text" 1%positive None)
           {[ "source" := PyStr "a.txt" ]} {[ "author" := PyStr "me" ]});
    vm_compute; reflexivity.
Defined.

Lemma add_metadata_later_wins_witness :
  let h2 := final (Processor.add_metadata 3%positive 5%positive
                     (final (Processor.add_metadata 3%positive 2%positive
                               Reference.contested_heap))) in
  exists merged,
    Processor.read_document h2 3%positive
    = Some (mkDocument "text" merged None)
    /\ merged !! "author" = Some (PyStr "you")
    /\ merged !! "lang" = Some (PyStr "fr")
    /\ merged !! "source" = Some (PyStr "a.txt")
    /\ forall k,
         merged !! k =
         match ({[ "author" := PyStr "you" ]} : gmap string PyVal) !! k with
         | Some v => Some v
         | None =>
             match (<["lang" := PyStr "fr"]> {[ "author" := PyStr "me" ]}
                    : gmap string PyVal) !! k with
             | Some v => Some v
             | None => (<["lang" := PyStr "en"]> {[ "source" := PyStr "a.txt" ]}
                        : gmap string PyVal) !! k
             end
         end.
Proof.
  destruct (add_metadata_later_wins Reference.contested_heap
              3%positive 2%positive 5%positive
              (Processor.mkDocumentObj "text" 1%positive None)
              (<["lang" := PyStr "en"]> {[ "source" := PyStr "a.txt" ]})
              (<["lang" := PyStr "fr"]> {[ "author" := PyStr "me" ]})
              {[ "author" := PyStr "you" ]}
              ltac:(vm_compute; reflexivity) ltac:(vm_compute; reflexivity)
              ltac:(vm_compute; reflexivity) ltac:(vm_compute; reflexivity)
              ltac:(vm_compute; discriminate))
    as (merged & Hread & Hkeys).
  exists merged. split; [exact Hread|].
  split; [rewrite Hkeys; vm_compute; reflexivity|].
  split; [rewrite Hkeys; vm_compute; reflexivity|].
  split; [rewrite Hkeys; vm_compute; reflexivity|].
  exact Hkeys.
Defined.

Lemma add_metadata_shared_mapping_witness :
  let h1 := final (Processor.add_metadata 3%positive 2%positive
                     Reference.shared_heap) in
  (1%positive = 1%positive ->
   Processor.read_document h1 4%positive
   = Some (mkDocument "second"
             (Processor.dict_update {[ "source" := PyStr "a.txt" ]}
                {[ "author" := PyStr "me" ]}) None))
  /\ (1%positive <> 1%positive ->
      Processor.read_document h1 4%positive
      = Processor.read_document Reference.shared_heap 4%positive).
Proof.
  apply (add_metadata_shared_mapping Reference.shared_heap 3%positive 4%positive
           2%positive
           (Processor.mkDocumentObj "first" 1%positive None)
           (Processor.mkDocumentObj "second" 1%positive None)
           {[ "source" := PyStr "a.txt" ]} {[ "author" := PyStr "me" ]});
    vm_compute; reflexivity.
Defined.

(** ** More on the connector *)

Lemma store_eta w :
  Connector.mkStore (Connector.self w) (Connector.engine w)
    (Connector.engine_opens w) (Connector.uuid_source w) (Connector.uuid_drawn w)
  = w.
Proof. destruct w; reflexivity. Qed.

Lemma connector_eta s :
  Connector.mkConnector (Connector.persist_directory s) (Connector.client s)
    (Connector.collections s) = s.
Proof. destruct s; reflexivity. Qed.

Lemma names_after_delete name e n :
  n ∈ Engine.names
        (List.filter (fun p : string * list Engine.Row =>
                        negb (String.eqb (fst p) name)) e)
  <-> n ∈ Engine.names e /\ n <> name.
Proof.
  unfold Engine.names. rewrite !list_elem_of_fmap. split.
  - intros [[n' rs] [-> Hin]].
    apply list_elem_of_In, List.filter_In in Hin as [Hin Hneq].
    cbn in Hneq. split.
    + exists (n', rs). split; [reflexivity|]. apply list_elem_of_In. exact Hin.
    + cbn. intros ->. rewrite String.eqb_refl in Hneq. discriminate.
  - intros [[[n' rs] [-> Hin]] Hneq]. exists (n', rs). split; [reflexivity|].
    apply list_elem_of_In, List.filter_In. split.
    + apply list_elem_of_In. exact Hin.
    + cbn in *. destruct (String.eqb_spec n' name); [contradiction|reflexivity].
Qed.

Lemma rows_after_delete name e n :
  n <> name ->
  Engine.rows (List.filter (fun p : string * list Engine.Row =>
                              negb (String.eqb (fst p) name)) e) n
  = Engine.rows e n.
Proof.
  intros Hne. unfold Engine.rows. f_equal.
  induction e as [|[n' rs] e IH]; [reflexivity|].
  cbn. destruct (String.eqb_spec n' name) as [->|Hn']; cbn.
  - destruct (String.eqb_spec name n); [congruence|]. exact IH.
  - destruct (String.eqb n' n); [reflexivity|]. exact IH.
Qed.

Lemma delete_appended name e :
  name ∉ Engine.names e ->
  List.filter (fun p : string * list Engine.Row =>
                 negb (String.eqb (fst p) name)) (e ++ [(name, [])])%list
  = e.
Proof.
  intros Hout. rewrite List.filter_app. cbn. rewrite String.eqb_refl. cbn.
  rewrite app_nil_r.
  induction e as [|[n rs] e IH]; [reflexivity|].
  unfold Engine.names in Hout. rewrite fmap_cons in Hout.
  apply not_elem_of_cons in Hout as [Hn Hout]. cbn in Hn.
  cbn. destruct (String.eqb_spec n name); [congruence|]. cbn.
  f_equal. apply IH. exact Hout.
Qed.

Lemma rows_of_appended name e :
  name ∉ Engine.names e ->
  Engine.rows (e ++ [(name, [])])%list name = Some [].
Proof.
  intros Hout. unfold Engine.rows.
  induction e as [|[n rs] e IH].
  - cbn. rewrite String.eqb_refl. reflexivity.
  - unfold Engine.names in Hout. rewrite fmap_cons in Hout.
    apply not_elem_of_cons in Hout as [Hn Hout]. cbn in Hn.
    cbn. destruct (String.eqb_spec n name); [congruence|]. apply IH. exact Hout.
Qed.

Lemma drop_collection_existing w name :
  Connector.not_client w = false ->
  name ∈ Engine.names (Connector.engine w) ->
  Connector.drop_collection name w =
  mkOutcome
    (Connector.set_self
       (fun s => Connector.set_collections
                   (delete name (Connector.collections s)) s)
       (Connector.set_engine
          (List.filter (fun p : string * list Engine.Row =>
                          negb (String.eqb (fst p) name)) (Connector.engine w))
          w))
    [mkLog INFO ("Dropped collection: " ++ name)]
    (Returned tt).
Proof.
  intros Hc Hin. unfold Connector.drop_collection. run_method.
  rewrite Hc. unfold Engine.delete_collection, py_in.
  rewrite !bool_decide_eq_true_2 by assumption. reflexivity.
Qed.

Lemma drop_collection_missing w name :
  Connector.not_client w = false ->
  name ∉ Engine.names (Connector.engine w) ->
  Connector.drop_collection name w =
  mkOutcome w
    [mkLog ERROR ("Error dropping collection " ++ name ++ ": Collection "
                  ++ name ++ " does not exist")]
    (Raised (EngineError ("Collection " ++ name ++ " does not exist"))).
Proof.
  intros Hc Hout. unfold Connector.drop_collection. run_method.
  rewrite Hc. unfold Engine.delete_collection, py_in.
  rewrite !bool_decide_eq_false_2 by assumption. cbv beta iota.
  unfold Connector.set_engine. rewrite store_eta. reflexivity.
Qed.

Lemma list_collections_connected w :
  Connector.not_client w = false ->
  Connector.list_collections w =
  mkOutcome w
    [mkLog INFO ("Found " ++ pretty (length (Engine.names (Connector.engine w)))
                 ++ " collections")]
    (Returned (Engine.names (Connector.engine w))).
Proof.
  intros Hc. unfold Connector.list_collections. run_method.
  rewrite Hc. reflexivity.
Qed.

Lemma get_collection_cached w name h :
  Connector.collections (Connector.self w) !! name = Some h ->
  Connector.get_collection name w = mkOutcome w [] (Returned h).
Proof.
  intros Hh. unfold Connector.get_collection. run_method.
  rewrite Hh. reflexivity.
Qed.

Lemma get_collection_uncached w name :
  Connector.not_client w = false ->
  Connector.collections (Connector.self w) !! name = None ->
  Connector.get_collection name w =
  mkOutcome
    (Connector.set_self
       (fun s => Connector.set_collections
                   (<[name := Engine.mkHandle name]> (Connector.collections s)) s)
       (Connector.set_engine
          (if py_in name (Engine.names (Connector.engine w))
           then Connector.engine w
           else (Connector.engine w ++ [(name, [])])%list) w))
    [] (Returned (Engine.mkHandle name)).
Proof.
  intros Hc Hnone. unfold Connector.get_collection. run_method.
  rewrite Hnone. unfold Connector.not_client in Hc.
  destruct (Connector.client (Connector.self w)); [|discriminate].
  unfold Engine.get_or_create_collection.
  destruct (py_in name _); reflexivity.
Qed.

(** X18.  The engine's collections survive a disconnect and reconnect,
    the handle cache does not: after [disconnect()] and a successful
    [connect()] the store is connected again, its cache is empty, and
    [list_collections()] returns the names it returned before. *)
Theorem reconnect_keeps_collections w :
  Connector.engine_opens w = true ->
  let w' := final (Connector.connect (final (Connector.disconnect w))) in
  result (Connector.connect (final (Connector.disconnect w))) = Returned tt
  /\ Connector.not_client w' = false
  /\ Connector.collections (Connector.self w') = ∅
  /\ Connector.engine w' = Connector.engine w
  /\ result (Connector.list_collections w')
     = Returned (Engine.names (Connector.engine w)).
Proof.
  intros Hopens. cbv zeta.
  assert (Hconnect :
    Connector.connect (final (Connector.disconnect w)) =
    mkOutcome
      (Connector.set_self
         (Connector.set_client
            (Some (Engine.mkClient
                     (Connector.persist_directory (Connector.self w)))))
         (final (Connector.disconnect w)))
      [mkLog INFO "Connected to ChromaDB"] (Returned tt)).
  { unfold Connector.connect. run_method.
    unfold Connector.disconnect. run_method. cbn.
    rewrite Hopens. reflexivity. }
  rewrite Hconnect. cbn [final result].
  split; [reflexivity|]. split; [reflexivity|].
  split; [reflexivity|]. split; [reflexivity|].
  rewrite list_collections_connected by reflexivity. reflexivity.
Qed.

(** X19.  A collection just created is listed: on a connected store,
    [list_collections()] after [create_collection(name)] returns the
    earlier names, with [name] among them, logs their number and leaves
    the store as [create_collection] left it. *)
Theorem created_collection_is_listed w name :
  Connector.not_client w = false ->
  let w1 := final (Connector.create_collection name w) in
  exists listed,
    Connector.list_collections w1
    = mkOutcome w1
        [mkLog INFO ("Found " ++ pretty (length listed) ++ " collections")]
        (Returned listed)
    /\ name ∈ listed
    /\ (forall n, n ∈ Engine.names (Connector.engine w) -> n ∈ listed)
    /\ (forall n, n ∈ listed ->
          n = name \/ n ∈ Engine.names (Connector.engine w)).
Proof.
  intros Hc. cbv zeta.
  destruct (decide (name ∈ Engine.names (Connector.engine w))) as [Hin|Hout].
  - rewrite (create_collection_existing w name Hc Hin). cbn [final].
    rewrite (list_collections_connected w Hc).
    eexists. split; [reflexivity|]. auto.
  - rewrite (create_collection_new w name Hc Hout). cbn [final].
    rewrite list_collections_connected by exact Hc.
    eexists. split; [reflexivity|].
    cbn [Connector.engine Connector.set_self Connector.set_engine].
    rewrite names_app.
    split; [apply elem_of_app; right; apply list_elem_of_singleton; reflexivity|].
    split; [intros n Hn; apply elem_of_app; left; exact Hn|].
    intros n Hn. apply elem_of_app in Hn as [Hn|Hn]; [auto|].
    apply list_elem_of_singleton in Hn. auto.
Qed.

(** X20.  [drop_collection] of a collection the engine holds returns,
    after which the collection is listed no more and its handle is out of
    the cache; the other collections, their records and their cached
    handles are as before. *)
Theorem drop_collection_removes w name :
  Connector.not_client w = false ->
  name ∈ Engine.names (Connector.engine w) ->
  let o := Connector.drop_collection name w in
  result o = Returned tt
  /\ emitted o = [mkLog INFO ("Dropped collection: " ++ name)]
  /\ (name ∉ Engine.names (Connector.engine (final o)))
  /\ Connector.collections (Connector.self (final o)) !! name = None
  /\ (forall n, n <> name ->
        (n ∈ Engine.names (Connector.engine (final o))
         <-> n ∈ Engine.names (Connector.engine w))
        /\ Engine.rows (Connector.engine (final o)) n
           = Engine.rows (Connector.engine w) n
        /\ Connector.collections (Connector.self (final o)) !! n
           = Connector.collections (Connector.self w) !! n).
Proof.
  intros Hc Hin. cbv zeta. rewrite (drop_collection_existing w name Hc Hin).
  cbn [result emitted final Connector.engine Connector.self Connector.set_self
       Connector.set_engine Connector.collections Connector.set_collections].
  split; [reflexivity|]. split; [reflexivity|].
  split. { rewrite names_after_delete. tauto. }
  split. { apply lookup_delete_eq. }
  intros n Hn. split; [|split].
  - rewrite names_after_delete. tauto.
  - apply rows_after_delete. exact Hn.
  - apply lookup_delete_ne. congruence.
Qed.

(** X21.  [drop_collection] of a collection the engine does not hold
    raises the error the engine's [delete_collection] raised, an engine
    error and no [ConnectionError], logged once at ERROR level, and
    changes nothing: a handle cached under that name stays cached. *)
Theorem drop_missing_collection_raises w name :
  Connector.not_client w = false ->
  name ∉ Engine.names (Connector.engine w) ->
  let e := EngineError ("Collection " ++ name ++ " does not exist") in
  snd (Engine.delete_collection name (Connector.engine w)) = Raised e
  /\ Connector.drop_collection name w
     = mkOutcome w
         [mkLog ERROR ("Error dropping collection " ++ name ++ ": "
                       ++ str_of_error e)]
         (Raised e).
Proof.
  intros Hc Hout. cbv zeta. split.
  - unfold Engine.delete_collection, py_in.
    rewrite bool_decide_eq_false_2 by exact Hout. reflexivity.
  - rewrite (drop_collection_missing w name Hc Hout). reflexivity.
Qed.

(** X22.  Creating a collection and dropping it again is a round trip:
    when the engine did not hold the name and no handle was cached under
    it, both calls return and the store is exactly as before. *)
Theorem create_then_drop_round_trip w name :
  Connector.not_client w = false ->
  name ∉ Engine.names (Connector.engine w) ->
  Connector.collections (Connector.self w) !! name = None ->
  let o1 := Connector.create_collection name w in
  let o2 := Connector.drop_collection name (final o1) in
  result o1 = Returned tt /\ result o2 = Returned tt /\ final o2 = w.
Proof.
  intros Hc Hout Hnone. cbv zeta.
  rewrite (create_collection_new w name Hc Hout). cbn [final result].
  split; [reflexivity|].
  rewrite drop_collection_existing.
  - cbn [result final]. split; [reflexivity|].
    unfold Connector.set_self, Connector.set_engine, Connector.set_collections.
    cbn [Connector.self Connector.engine Connector.engine_opens
         Connector.uuid_source Connector.uuid_drawn Connector.collections
         Connector.persist_directory Connector.client].
    rewrite (delete_appended name _ Hout).
    rewrite delete_insert_eq, (delete_id _ _ Hnone).
    rewrite connector_eta. apply store_eta.
  - exact Hc.
  - cbn [Connector.engine Connector.set_self Connector.set_engine].
    rewrite names_app. apply elem_of_app. right.
    apply list_elem_of_singleton. reflexivity.
Qed.

Lemma rows_app_l e l n :
  n ∈ Engine.names e ->
  Engine.rows (e ++ l)%list n = Engine.rows e n.
Proof.
  intros Hin. unfold Engine.rows. f_equal.
  induction e as [|[n' rs] e IH].
  - apply elem_of_nil in Hin as [].
  - unfold Engine.names in Hin. rewrite fmap_cons in Hin.
    cbn. destruct (String.eqb_spec n' n) as [->|Hne]; [reflexivity|].
    apply elem_of_cons in Hin as [Hin|Hin]; [cbn in Hin; congruence|].
    apply IH. exact Hin.
Qed.

(** X23.  [get_collection] gets or creates, once: on a connected store
    it returns a handle without logging, leaves the records of the
    collections the engine holds untouched, and files the handle in the
    cache, so that a second call returns the same handle and changes
    nothing.  For a name not cached before, the collection exists
    afterwards and the handle names it. *)
Theorem get_collection_caches w name :
  Connector.not_client w = false ->
  let o1 := Connector.get_collection name w in
  let o2 := Connector.get_collection name (final o1) in
  exists h,
    result o1 = Returned h
    /\ emitted o1 = []
    /\ Connector.collections (Connector.self (final o1)) !! name = Some h
    /\ o2 = mkOutcome (final o1) [] (Returned h)
    /\ (forall n, n ∈ Engine.names (Connector.engine w) ->
          Engine.rows (Connector.engine (final o1)) n
          = Engine.rows (Connector.engine w) n)
    /\ (Connector.collections (Connector.self w) !! name = None ->
        name ∈ Engine.names (Connector.engine (final o1))
        /\ Engine.handle_name h = name).
Proof.
  intros Hc. cbv zeta.
  destruct (Connector.collections (Connector.self w) !! name) as [h|] eqn:Hcache.
  - rewrite (get_collection_cached w name h Hcache). cbn [final result emitted].
    rewrite (get_collection_cached w name h Hcache).
    exists h. repeat split; try assumption; discriminate.
  - rewrite (get_collection_uncached w name Hc Hcache).
    cbn [final result emitted].
    exists (Engine.mkHandle name).
    split; [reflexivity|]. split; [reflexivity|].
    split; [apply lookup_insert_eq|].
    split.
    { apply get_collection_cached. cbn. apply lookup_insert_eq. }
    cbn [Connector.engine Connector.set_self Connector.set_engine].
    unfold py_in. case_bool_decide as Hin.
    + split; [reflexivity|]. intros _. split; [exact Hin|reflexivity].
    + split; [intros n Hn; apply rows_app_l; exact Hn|].
      intros _. split; [|reflexivity].
      rewrite names_app. apply elem_of_app. right.
      apply list_elem_of_singleton. reflexivity.
Qed.

(** X24.  [get_collection] has no connection guard: on a store without
    client and without a cached handle for the name (a fresh connector,
    any connector after [disconnect()]) it raises [AttributeError], not
    the [ConnectionError] of the other operations; the store is unchanged
    and nothing is logged. *)
Theorem get_collection_without_client w name :
  Connector.client (Connector.self w) = None ->
  Connector.collections (Connector.self w) !! name = None ->
  exists msg,
    Connector.get_collection name w
    = mkOutcome w [] (Raised (AttributeError msg))
    /\ AttributeError msg <> NotConnected.
Proof.
  intros Hnone Hcache. eexists. split; [|discriminate].
  unfold Connector.get_collection. run_method.
  rewrite Hcache, Hnone. reflexivity.
Qed.

(** X25.  A dropped collection comes back empty: after
    [drop_collection(name)], [get_collection(name)] returns a handle all
    the same, the engine holding the name again, with no record. *)
Theorem get_collection_after_drop w name :
  Connector.not_client w = false ->
  name ∈ Engine.names (Connector.engine w) ->
  let w1 := final (Connector.drop_collection name w) in
  let o := Connector.get_collection name w1 in
  result o = Returned (Engine.mkHandle name)
  /\ name ∈ Engine.names (Connector.engine (final o))
  /\ Engine.rows (Connector.engine (final o)) name = Some [].
Proof.
  intros Hc Hin. cbv zeta. rewrite (drop_collection_existing w name Hc Hin).
  cbn [final].
  set (w1 := Connector.set_self _ _).
  assert (Hc1 : Connector.not_client w1 = false) by exact Hc.
  assert (Hcache : Connector.collections (Connector.self w1) !! name = None)
    by (subst w1; cbn; apply lookup_delete_eq).
  assert (Hout : name ∉ Engine.names (Connector.engine w1))
    by (subst w1; cbn; rewrite names_after_delete; tauto).
  rewrite (get_collection_uncached w1 name Hc1 Hcache).
  cbn [result final Connector.engine Connector.set_self Connector.set_engine].
  unfold py_in. rewrite bool_decide_eq_false_2 by exact Hout.
  split; [reflexivity|]. split.
  - rewrite names_app. apply elem_of_app. right.
    apply list_elem_of_singleton. reflexivity.
  - apply rows_of_appended. exact Hout.
Qed.

Lemma add_to_collection_never_returns_frame w name chunks embeddings metadata :
  final (Connector.add_to_collection name chunks embeddings metadata w) = w.
Proof.
  destruct (Connector.not_client w) eqn:Hc.
  - unfold Connector.add_to_collection. run_method. rewrite Hc. reflexivity.
  - rewrite (add_to_collection_connected w _ _ _ _ Hc). reflexivity.
Qed.

Lemma search_similar_never_returns_frame w name query_embedding k :
  final (Connector.search_similar name query_embedding k w) = w.
Proof.
  destruct (Connector.not_client w) eqn:Hc.
  - unfold Connector.search_similar. run_method. rewrite Hc. reflexivity.
  - rewrite (search_similar_connected w _ _ _ Hc). reflexivity.
Qed.



(** *** Sequences of calls *)

Lemma all_rows_app_empty e name :
  Session.all_rows (e ++ [(name, [])])%list = Session.all_rows e.
Proof.
  unfold Session.all_rows. rewrite fmap_app, concat_app. cbn.
  apply app_nil_r.
Qed.

Lemma all_rows_after_delete name e r :
  r ∈ Session.all_rows
        (List.filter (fun p : string * list Engine.Row =>
                        negb (String.eqb (fst p) name)) e) ->
  r ∈ Session.all_rows e.
Proof.
  unfold Session.all_rows. induction e as [|[n rs] e IH]; [auto|].
  cbn. destruct (negb (String.eqb n name)); cbn.
  - rewrite !elem_of_app. intros [H|H]; [left; exact H|right; auto].
  - intros H. apply elem_of_app. right. auto.
Qed.

Lemma NoDup_names_after_delete name e :
  NoDup (Engine.names e) ->
  NoDup (Engine.names
           (List.filter (fun p : string * list Engine.Row =>
                           negb (String.eqb (fst p) name)) e)).
Proof.
  induction e as [|[n rs] e IH]; intros Hnd; [constructor|].
  unfold Engine.names in Hnd. rewrite fmap_cons in Hnd.
  apply NoDup_cons in Hnd as [Hn Hnd].
  cbn [List.filter fst]. destruct (negb (String.eqb n name)).
  - unfold Engine.names. rewrite fmap_cons. apply NoDup_cons. split.
    + intros Hin. apply Hn. apply (names_after_delete name e) in Hin. tauto.
    + apply IH. exact Hnd.
  - apply IH. exact Hnd.
Qed.

(** What one call can do to the store, whatever the call. *)
Lemma perform_steps c w :
  Session.perform c w = w
  \/ (exists cl, Session.perform c w
                 = Connector.set_self (Connector.set_client cl) w)
  \/ Session.perform c w
     = Connector.set_self
         (fun s => Connector.set_collections ∅ (Connector.set_client None s)) w
  \/ (exists name,
        (name ∉ Engine.names (Connector.engine w))
        /\ Session.perform c w
           = Connector.set_self
               (fun s => Connector.set_collections
                           (<[name := Engine.mkHandle name]>
                              (Connector.collections s)) s)
               (Connector.set_engine
                  (Connector.engine w ++ [(name, [])])%list w))
  \/ (exists name,
        name ∈ Engine.names (Connector.engine w)
        /\ Session.perform c w
           = Connector.set_self
               (fun s => Connector.set_collections
                           (<[name := Engine.mkHandle name]>
                              (Connector.collections s)) s) w)
  \/ (exists name,
        Session.perform c w
        = Connector.set_self
            (fun s => Connector.set_collections
                        (delete name (Connector.collections s)) s)
            (Connector.set_engine
               (List.filter (fun p : string * list Engine.Row =>
                               negb (String.eqb (fst p) name))
                  (Connector.engine w)) w)).
Proof.
  destruct c as [| |name|name| |name|name chunks embeddings metadata|name q k];
    cbn [Session.perform].
  - (* connect *)
    destruct (Connector.engine_opens w) eqn:Hopens.
    + right. left. eexists.
      unfold Connector.connect. run_method. rewrite Hopens. reflexivity.
    + left. apply failed_connect_keeps_store. exact Hopens.
  - (* disconnect *)
    right. right. left. reflexivity.
  - (* create_collection *)
    destruct (Connector.not_client w) eqn:Hc.
    + left. unfold Connector.create_collection. run_method. rewrite Hc.
      reflexivity.
    + destruct (decide (name ∈ Engine.names (Connector.engine w))) as [Hin|Hout].
      * left. rewrite (create_collection_existing w name Hc Hin). reflexivity.
      * right. right. right. left. exists name. split; [exact Hout|].
        rewrite (create_collection_new w name Hc Hout). reflexivity.
  - (* drop_collection *)
    destruct (Connector.not_client w) eqn:Hc.
    + left. unfold Connector.drop_collection. run_method. rewrite Hc.
      reflexivity.
    + destruct (decide (name ∈ Engine.names (Connector.engine w))) as [Hin|Hout].
      * do 5 right. exists name.
        rewrite (drop_collection_existing w name Hc Hin). reflexivity.
      * left. rewrite (drop_collection_missing w name Hc Hout). reflexivity.
  - (* list_collections *)
    left. destruct (Connector.not_client w) eqn:Hc.
    + unfold Connector.list_collections. run_method. rewrite Hc. reflexivity.
    + rewrite (list_collections_connected w Hc). reflexivity.
  - (* get_collection *)
    destruct (Connector.collections (Connector.self w) !! name) as [h|] eqn:Hcache.
    + left. rewrite (get_collection_cached w name h Hcache). reflexivity.
    + destruct (Connector.not_client w) eqn:Hc.
      * left. unfold Connector.get_collection. run_method. rewrite Hcache.
        unfold Connector.not_client in Hc.
        destruct (Connector.client (Connector.self w)); [discriminate|].
        reflexivity.
      * rewrite (get_collection_uncached w name Hc Hcache). cbn [final].
        unfold py_in. case_bool_decide as Hin.
        -- do 4 right. left. exists name. split; [exact Hin|].
           unfold Connector.set_engine. rewrite store_eta. reflexivity.
        -- right. right. right. left. exists name. split; [exact Hin|].
           reflexivity.
  - (* add_to_collection *)
    left. apply add_to_collection_never_returns_frame.
  - (* search_similar *)
    left. apply search_similar_never_returns_frame.
Qed.

(** X28.  Whatever public methods are called, in whatever order and
    with whatever arguments, a [ChromaConnector] never adds a record and
    never draws an id, keeps the engine's collection names distinct, and
    keeps its cache coherent: every cached handle is filed under the name
    of its collection, and the engine holds that collection. *)
Theorem session_invariants calls w :
  NoDup (Engine.names (Connector.engine w)) ->
  Session.coherent w ->
  let w' := Session.run calls w in
  NoDup (Engine.names (Connector.engine w'))
  /\ Session.coherent w'
  /\ (forall r, r ∈ Session.all_rows (Connector.engine w') ->
                r ∈ Session.all_rows (Connector.engine w))
  /\ Connector.uuid_drawn w' = Connector.uuid_drawn w.
Proof.
  cbv zeta. unfold Session.run.
  revert w. induction calls as [|c calls IH]; intros w Hnd Hco.
  - cbn. auto.
  - cbn [foldl].
    assert (Hstep :
      NoDup (Engine.names (Connector.engine (Session.perform c w)))
      /\ Session.coherent (Session.perform c w)
      /\ (forall r, r ∈ Session.all_rows (Connector.engine (Session.perform c w)) ->
                    r ∈ Session.all_rows (Connector.engine w))
      /\ Connector.uuid_drawn (Session.perform c w) = Connector.uuid_drawn w).
    { destruct (perform_steps c w)
        as [-> | [[cl ->] | [-> | [(name & Hout & ->) | [(name & Hin & ->)
                                                        | (name & ->)]]]]].
      - auto.
      - split; [exact Hnd|]. split; [exact Hco|]. auto.
      - split; [exact Hnd|]. split; [|auto].
        intros n h Hh. cbn in Hh. rewrite lookup_empty in Hh. discriminate.
      - cbn [Connector.engine Connector.set_self Connector.set_engine
             Connector.uuid_drawn].
        split; [|split; [|split]].
        + rewrite names_app. apply NoDup_app. split; [assumption|].
          split; [|apply NoDup_singleton].
          intros x Hx Hx'. apply list_elem_of_singleton in Hx'. congruence.
        + intros n h Hh. cbn in Hh.
          cbn [Connector.engine Connector.set_self Connector.set_engine].
          rewrite names_app.
          destruct (decide (name = n)) as [->|Hne].
          * rewrite lookup_insert_eq in Hh. injection Hh as <-.
            split; [reflexivity|]. apply elem_of_app. right.
            apply list_elem_of_singleton. reflexivity.
          * rewrite lookup_insert_ne in Hh by exact Hne.
            destruct (Hco n h Hh) as [Hname Hheld].
            split; [exact Hname|]. apply elem_of_app. left. exact Hheld.
        + intros r. rewrite all_rows_app_empty. auto.
        + reflexivity.
      - split; [exact Hnd|]. split; [|auto].
        intros n h Hh. cbn in Hh.
        destruct (decide (name = n)) as [->|Hne].
        + rewrite lookup_insert_eq in Hh. injection Hh as <-.
          split; [reflexivity|exact Hin].
        + rewrite lookup_insert_ne in Hh by exact Hne. exact (Hco n h Hh).
      - cbn [Connector.engine Connector.set_self Connector.set_engine
             Connector.uuid_drawn].
        split; [|split; [|split]].
        + apply NoDup_names_after_delete. exact Hnd.
        + intros n h Hh. cbn in Hh.
          cbn [Connector.engine Connector.set_self Connector.set_engine].
          destruct (decide (name = n)) as [->|Hne].
          * rewrite lookup_delete_eq in Hh. discriminate.
          * rewrite lookup_delete_ne in Hh by exact Hne.
            destruct (Hco n h Hh) as [Hname Hheld].
            split; [exact Hname|]. apply names_after_delete. split; congruence.
        + intros r. apply all_rows_after_delete.
        + reflexivity. }
    destruct Hstep as (Hnd1 & Hco1 & Hrows1 & Huuid1).
    destruct (IH _ Hnd1 Hco1) as (Hnd2 & Hco2 & Hrows2 & Huuid2).
    split; [exact Hnd2|]. split; [exact Hco2|].
    split; [intros r Hr; apply Hrows1, Hrows2, Hr|].
    rewrite Huuid2. exact Huuid1.
Qed.

(** *** The connector on reference stores *)

Lemma two_collections_coherent : Session.coherent Reference.two_collections.
Proof.
  intros n h Hh. cbn in Hh. apply lookup_singleton_Some in Hh as [<- <-].
  split; [reflexivity|]. apply elem_of_cons. left. reflexivity.
Defined.

Lemma two_collections_NoDup :
  NoDup (Engine.names (Connector.engine Reference.two_collections)).
Proof.
  apply NoDup_cons. split.
  - intros Hin. apply list_elem_of_singleton in Hin. discriminate Hin.
  - apply NoDup_singleton.
Defined.

Lemma reconnect_keeps_collections_witness :
  let w := Reference.two_collections in
  let w' := final (Connector.connect (final (Connector.disconnect w))) in
  result (Connector.connect (final (Connector.disconnect w))) = Returned tt
  /\ Connector.not_client w' = false
  /\ Connector.collections (Connector.self w') = ∅
  /\ Connector.engine w' = Connector.engine w
  /\ result (Connector.list_collections w')
     = Returned (Engine.names (Connector.engine w)).
Proof.
  apply (reconnect_keeps_collections Reference.two_collections). reflexivity.
Defined.

Lemma created_collection_is_listed_witness :
  let w1 := final (Connector.create_collection "x" Reference.two_collections) in
  exists listed,
    Connector.list_collections w1
    = mkOutcome w1
        [mkLog INFO ("Found " ++ pretty (length listed) ++ " collections")]
        (Returned listed)
    /\ "x" ∈ listed
    /\ (forall n, n ∈ Engine.names (Connector.engine Reference.two_collections) ->
                  n ∈ listed)
    /\ (forall n, n ∈ listed ->
          n = "x" \/ n ∈ Engine.names (Connector.engine Reference.two_collections)).
Proof.
  apply (created_collection_is_listed Reference.two_collections "x").
  reflexivity.
Defined.

Lemma drop_collection_removes_witness :
  let w := Reference.two_collections in
  let o := Connector.drop_collection "docs" w in
  result o = Returned tt
  /\ emitted o = [mkLog INFO ("Dropped collection: " ++ "docs")]
  /\ ("docs" ∉ Engine.names (Connector.engine (final o)))
  /\ Connector.collections (Connector.self (final o)) !! "docs" = None
  /\ (forall n, n <> "docs" ->
        (n ∈ Engine.names (Connector.engine (final o))
         <-> n ∈ Engine.names (Connector.engine w))
        /\ Engine.rows (Connector.engine (final o)) n
           = Engine.rows (Connector.engine w) n
        /\ Connector.collections (Connector.self (final o)) !! n
           = Connector.collections (Connector.self w) !! n).
Proof.
  apply (drop_collection_removes Reference.two_collections "docs").
  - reflexivity.
  - apply elem_of_cons. left. reflexivity.
Defined.

Lemma drop_missing_collection_raises_witness :
  let e := EngineError ("Collection " ++ "missing" ++ " does not exist") in
  snd (Engine.delete_collection "missing"
         (Connector.engine Reference.two_collections)) = Raised e
  /\ Connector.drop_collection "missing" Reference.two_collections
     = mkOutcome Reference.two_collections
         [mkLog ERROR ("Error dropping collection " ++ "missing" ++ ": "
                       ++ str_of_error e)]
         (Raised e).
Proof.
  apply (drop_missing_collection_raises Reference.two_collections "missing").
  - reflexivity.
  - intros Hin. apply (bool_decide_eq_true_2 _) in Hin.
    vm_compute in Hin. discriminate Hin.
Defined.

Lemma create_then_drop_round_trip_witness :
  let w := Reference.two_collections in
  let o1 := Connector.create_collection "x" w in
  let o2 := Connector.drop_collection "x" (final o1) in
  result o1 = Returned tt /\ result o2 = Returned tt /\ final o2 = w.
Proof.
  apply (create_then_drop_round_trip Reference.two_collections "x").
  - reflexivity.
  - intros Hin. apply (bool_decide_eq_true_2 _) in Hin.
    vm_compute in Hin. discriminate Hin.
  - vm_compute. reflexivity.
Defined.

Lemma get_collection_caches_witness :
  let w := Reference.two_collections in
  let o1 := Connector.get_collection "notes" w in
  let o2 := Connector.get_collection "notes" (final o1) in
  exists h,
    result o1 = Returned h
    /\ emitted o1 = []
    /\ Connector.collections (Connector.self (final o1)) !! "notes" = Some h
    /\ o2 = mkOutcome (final o1) [] (Returned h)
    /\ (forall n, n ∈ Engine.names (Connector.engine w) ->
          Engine.rows (Connector.engine (final o1)) n
          = Engine.rows (Connector.engine w) n)
    /\ (Connector.collections (Connector.self w) !! "notes" = None ->
        "notes" ∈ Engine.names (Connector.engine (final o1))
        /\ Engine.handle_name h = "notes").
Proof.
  apply (get_collection_caches Reference.two_collections "notes").
  reflexivity.
Defined.

Lemma get_collection_without_client_witness :
  let w := final (Connector.disconnect Reference.two_collections) in
  exists msg,
    Connector.get_collection "docs" w
    = mkOutcome w [] (Raised (AttributeError msg))
    /\ AttributeError msg <> NotConnected.
Proof.
  apply (get_collection_without_client
           (final (Connector.disconnect Reference.two_collections)) "docs");
    reflexivity.
Defined.

Lemma get_collection_after_drop_witness :
  let w := Reference.two_collections in
  let w1 := final (Connector.drop_collection "docs" w) in
  let o := Connector.get_collection "docs" w1 in
  Engine.rows (Connector.engine w) "docs"
    = Some [Engine.mkRow "r0" "AAAA" [1%Q; 0%Q] ∅]
  /\ result o = Returned (Engine.mkHandle "docs")
  /\ "docs" ∈ Engine.names (Connector.engine (final o))
  /\ Engine.rows (Connector.engine (final o)) "docs" = Some [].
Proof.
  split; [reflexivity|].
  apply (get_collection_after_drop Reference.two_collections "docs").
  - reflexivity.
  - apply elem_of_cons. left. reflexivity.
Defined.

Lemma session_invariants_witness :
  let w := Reference.two_collections in
  let w' := Session.run Reference.busy_session w in
  NoDup (Engine.names (Connector.engine w'))
  /\ Session.coherent w'
  /\ (forall r, r ∈ Session.all_rows (Connector.engine w') ->
                r ∈ Session.all_rows (Connector.engine w))
  /\ Connector.uuid_drawn w' = Connector.uuid_drawn w.
Proof.
  apply (session_invariants Reference.busy_session Reference.two_collections).
  - exact two_collections_NoDup.
  - exact two_collections_coherent.
Defined.
